(** * Low-stock alerts endpoint (task1/index.py): model and properties

    The Flask view [low_stock_alerts] of [task1/index.py] is embedded as a
    function of the database contents, the requested company identifier and
    the clock reading.  Python exceptions are results of an error monad,
    Python floats are IEEE 754 binary64 values ([spec_float] with precision
    53 and maximal exponent 1024), datetimes are integer counts of
    microseconds, ORM tables are lists of rows in storage order, and the
    insertion-ordered dictionary [prod_inv_map] is an association list. *)

From Stdlib Require Import ZArith Floats.SpecFloat.
From stdpp Require Import base list gmap strings.

Open Scope Z_scope.

(** ** Python exceptions and the error monad *)

Inductive exception :=
  | AttributeError
  | OverflowError
  | ValueError
  | ZeroDivisionError.

Inductive py (A : Type) :=
  | Return (a : A)
  | Raise (e : exception).
Arguments Return {A} a.
Arguments Raise {A} e.

#[export] Instance py_ret : MRet py := @Return.
#[export] Instance py_bind : MBind py := λ A B f m,
  match m with
  | Return a => f a
  | Raise e => Raise e
  end.

#[export] Instance py_fmap : FMap py := λ A B f m,
  match m with
  | Return a => Return (f a)
  | Raise e => Raise e
  end.

(** ** Python numbers

    [int] is unbounded ([Z]); [float] is binary64. *)

Definition float_prec : Z := 53.
Definition float_emax : Z := 1024.

Inductive number :=
  | Int (z : Z)
  | Float (f : spec_float).

(** An [int] read as an exact (not yet rounded) binary number. *)
Definition exact_of_int (z : Z) : spec_float :=
  match z with
  | Z0 => S754_zero false
  | Zpos p => S754_finite false p 0
  | Zneg p => S754_finite true p 0
  end.

(** [float(z)]: the nearest double, ties to even; [OverflowError] when the
    integer is too large for a double. *)
Definition float_of_int (z : Z) : py spec_float :=
  match binary_normalize float_prec float_emax z 0 false with
  | S754_infinity _ => Raise OverflowError
  | f => Return f
  end.

(** [a / b] on two [int]s: the correctly rounded quotient;
    [ZeroDivisionError] for a zero divisor, [OverflowError] when the quotient
    is too large for a double. *)
Definition int_truediv (a b : Z) : py spec_float :=
  if decide (b = 0) then Raise ZeroDivisionError
  else match SFdiv float_prec float_emax (exact_of_int a) (exact_of_int b) with
       | S754_infinity _ => Raise OverflowError
       | f => Return f
       end.

(** [x / y] on two [float]s. *)
Definition float_truediv (x y : spec_float) : py spec_float :=
  match y with
  | S754_zero _ => Raise ZeroDivisionError
  | _ => Return (SFdiv float_prec float_emax x y)
  end.

(** [a / y] for an [int] [a] and a number [y]. *)
Definition truediv (a : Z) (y : number) : py number :=
  match y with
  | Int b => Float <$> int_truediv a b
  | Float f => x ← float_of_int a; Float <$> float_truediv x f
  end.

(** [x > 0] and [x <= 0], as Python compares a number with the [int] zero. *)
Definition number_gt0 (x : number) : bool :=
  match x with
  | Int z => bool_decide (0 < z)
  | Float f => SFltb (S754_zero false) f
  end.

Definition number_le0 (x : number) : bool :=
  match x with
  | Int z => bool_decide (z ≤ 0)
  | Float f => SFleb f (S754_zero false)
  end.

(** [x == 0]. *)
Definition number_eq0 (x : number) : bool :=
  match x with
  | Int z => bool_decide (z = 0)
  | Float f => SFeqb f (S754_zero false)
  end.

(** [math.floor(x)]: an [int]; [ValueError] on NaN, [OverflowError] on an
    infinity. *)
Definition floor (x : number) : py Z :=
  match x with
  | Int z => Return z
  | Float S754_nan => Raise ValueError
  | Float (S754_infinity _) => Raise OverflowError
  | Float (S754_zero _) => Return 0
  | Float (S754_finite s m e) => Return (Z.shiftl (cond_Zopp s (Zpos m)) e)
  end.

(** ** Models (tables)

    Every column holds a value, except the optional supplier reference of a
    product and the optional contact address of a supplier; [product_type]
    may also be Python's [None].  Integer columns are Python [int]s ([Z]);
    SQLite stores them in 64 bits, which [inventory_ok] below states where a
    proof needs it.  [created_at] counts microseconds. *)

Module Company.
Record t := mk { id : Z; name : string }.
End Company.

Module Warehouse.
Record t := mk { id : Z; name : string; company_id : Z }.
End Warehouse.

Module Supplier.
Record t := mk { id : Z; name : string; contact_email : option string }.
End Supplier.

Module Product.
Record t := mk {
  id : Z;
  name : string;
  sku : string;
  product_type : option string;
  supplier_id : option Z
}.
End Product.

Module Inventory.
Record t := mk { id : Z; product_id : Z; warehouse_id : Z; quantity : Z }.
End Inventory.

Module Sale.
Record t := mk { id : Z; product_id : Z; quantity : Z; created_at : Z }.
End Sale.

(** The contents of the database, each table in storage order. *)
Record Database := {
  companies : list Company.t;
  warehouses : list Warehouse.t;
  suppliers : list Supplier.t;
  products : list Product.t;
  inventories : list Inventory.t;
  sales : list Sale.t
}.

(** [Model.query.get(key)]: the row with that primary key, if any. *)
Definition query_get {A} (pk : A → Z) (table : list A) (key : Z) : option A :=
  head (filter (λ row, pk row = key) table).

(** Relationships. *)
Definition Company_warehouses (db : Database) (company : Company.t) : list Warehouse.t :=
  filter (λ w, Warehouse.company_id w = Company.id company) (warehouses db).

Definition Product_sales (db : Database) (product : Product.t) : list Sale.t :=
  filter (λ s, Sale.product_id s = Product.id product) (sales db).

Definition Product_supplier (db : Database) (product : Product.t) : option Supplier.t :=
  Product.supplier_id product ≫= query_get Supplier.id (suppliers db).

Definition Inventory_warehouse (db : Database) (inv : Inventory.t) : option Warehouse.t :=
  query_get Warehouse.id (warehouses db) (Inventory.warehouse_id inv).

(** ** Business rules / configuration *)

Definition THRESHOLDS_BY_TYPE : gmap string Z :=
  {[ "fast-moving" := 50; "normal" := 20; "slow-moving" := 5 ]}.

Definition SALES_LOOKBACK_DAYS : Z := 90.
Definition SALES_AVG_DAYS : Z := 30.

(** [timedelta(days=d)], in microseconds. *)
Definition timedelta (days : Z) : Z := days * 86400000000.

(** ** Helper functions *)

Definition get_threshold_for_product (product : Product.t) : Z :=
  default 10 (Product.product_type product ≫= (THRESHOLDS_BY_TYPE !!.)).

Definition get_recent_sales (db : Database) (product : Product.t) (since : Z) : list Sale.t :=
  filter (λ s, since ≤ Sale.created_at s) (Product_sales db product).

(** ** Endpoint *)

(** The [supplier] object of an alert. *)
Module SupplierObj.
Record t := mk { id : Z; name : string; contact_email : option string }.
End SupplierObj.

(** One element of the [alerts] array. *)
Module Alert.
Record t := mk {
  product_id : Z;
  product_name : string;
  sku : string;
  warehouse_id : Z;
  warehouse_name : string;
  current_stock : Z;
  threshold : Z;
  days_until_stockout : option Z;
  supplier : option SupplierObj.t
}.
End Alert.

(** The JSON body and the status code returned by the view. *)
Inductive body :=
  | ErrorBody (error : string)
  | AlertsBody (alerts : list Alert.t) (total_alerts : Z).

Definition Response : Type := body * Z.

(** [prod_inv_map.setdefault(key, []).append(inv)] on an insertion-ordered
    dictionary. *)
Fixpoint setdefault_append (key : Z) (inv : Inventory.t)
    (prod_inv_map : list (Z * list Inventory.t)) : list (Z * list Inventory.t) :=
  match prod_inv_map with
  | [] => [(key, [inv])]
  | (k, inv_list) :: rest =>
      if decide (k = key) then (k, inv_list ++ [inv]) :: rest
      else (k, inv_list) :: setdefault_append key inv rest
  end.

(** The loop that fills [prod_inv_map]. *)
Fixpoint group_inventories (inventories : list Inventory.t)
    (prod_inv_map : list (Z * list Inventory.t)) : list (Z * list Inventory.t) :=
  match inventories with
  | [] => prod_inv_map
  | inv :: rest =>
      group_inventories rest (setdefault_append (Inventory.product_id inv) inv prod_inv_map)
  end.

(** [total_sold_in_window]: the sum of the quantities of [sales_for_avg]. *)
Definition total_sold_in_window (sales_for_avg : list Sale.t) : Z :=
  foldr Z.add 0 (Sale.quantity <$> sales_for_avg).

(** The average daily sales of a product whose sales are [product_sales],
    over the [window_days] days that end at [now]; the view takes
    [SALES_AVG_DAYS] for [window_days]. *)
Definition avg_daily_sales (product_sales : list Sale.t) (now window_days : Z) : py number :=
  let avg_sales_cutoff := now - timedelta window_days in
  let sales_for_avg := filter (λ s, avg_sales_cutoff ≤ Sale.created_at s) product_sales in
  if decide (0 < window_days)
  then Float <$> int_truediv (total_sold_in_window sales_for_avg) window_days
  else Return (Int 0).

(** The estimate of the days until stockout ([None] if it cannot be
    estimated). *)
Definition days_until_stockout (current_stock : Z) (avg : number) : py (option Z) :=
  if number_gt0 avg
  then q ← truediv current_stock avg; d ← floor q; Return (Some d)
  else Return None.

Definition supplier_obj (supplier : option Supplier.t) : option SupplierObj.t :=
  (λ s, SupplierObj.mk (Supplier.id s) (Supplier.name s) (Supplier.contact_email s))
    <$> supplier.

(** The body of the inner loop for one inventory row: the alert appended, if
    any. *)
Definition inventory_alert (db : Database) (product : Product.t) (threshold : Z)
    (avg : number) (inv : Inventory.t) : py (option Alert.t) :=
  let current_stock := Inventory.quantity inv in
  if decide (current_stock < threshold) then
    days ← days_until_stockout current_stock avg;
    match Inventory_warehouse db inv with
    | None => Raise AttributeError
    | Some warehouse =>
        Return (Some (Alert.mk (Product.id product) (Product.name product)
                  (Product.sku product) (Warehouse.id warehouse)
                  (Warehouse.name warehouse) current_stock threshold days
                  (supplier_obj (Product_supplier db product))))
    end
  else Return None.

(** [for inv in inv_list: ...], threading the list [alerts]. *)
Fixpoint inventory_loop (db : Database) (product : Product.t) (threshold : Z)
    (avg : number) (inv_list : list Inventory.t) (alerts : list Alert.t)
    : py (list Alert.t) :=
  match inv_list with
  | [] => Return alerts
  | inv :: rest =>
      a ← inventory_alert db product threshold avg inv;
      inventory_loop db product threshold avg rest (alerts ++ option_list a)
  end.

(** [for product_id, inv_list in prod_inv_map.items(): ...]. *)
Fixpoint product_loop (db : Database) (now : Z)
    (items : list (Z * list Inventory.t)) (alerts : list Alert.t)
    : py (list Alert.t) :=
  match items with
  | [] => Return alerts
  | (product_id, inv_list) :: rest =>
      match query_get Product.id (products db) product_id with
      | None => Raise AttributeError
      | Some product =>
          let lookback_cutoff := now - timedelta SALES_LOOKBACK_DAYS in
          let recent_sales := get_recent_sales db product lookback_cutoff in
          match recent_sales with
          | [] => product_loop db now rest alerts
          | _ :: _ =>
              let threshold := get_threshold_for_product product in
              avg ← avg_daily_sales (Product_sales db product) now SALES_AVG_DAYS;
              alerts' ← inventory_loop db product threshold avg inv_list alerts;
              product_loop db now rest alerts'
          end
      end
  end.

(** The rows of [Inventory] held in the warehouses of [company]. *)
Definition company_inventories (db : Database) (company : Company.t) : list Inventory.t :=
  let warehouse_ids := Warehouse.id <$> Company_warehouses db company in
  filter (λ inv, Inventory.warehouse_id inv ∈ warehouse_ids) (inventories db).

(** [Company.query.get(company_id)] for the identifier taken from the URL.
    The identifier is bound as a SQLite INTEGER: one outside the signed
    64-bit range, which no stored row has, makes the query raise
    [OverflowError]. *)
Definition Company_query_get (db : Database) (company_id : Z) : py (option Company.t) :=
  match query_get Company.id (companies db) company_id with
  | Some company => Return (Some company)
  | None =>
      if decide (- 2 ^ 63 ≤ company_id < 2 ^ 63) then Return None
      else Raise OverflowError
  end.

(** [GET /api/companies/<company_id>/alerts/low-stock], answered at clock
    reading [now]. *)
Definition low_stock_alerts (db : Database) (now : Z) (company_id : Z) : py Response :=
  company ← Company_query_get db company_id;
  match company with
  | None => Return (ErrorBody "Company not found", 404)
  | Some company =>
      let prod_inv_map := group_inventories (company_inventories db company) [] in
      alerts ← product_loop db now prod_inv_map [];
      Return (AlertsBody alerts (Z.of_nat (length alerts)), 200)
  end.

(** ** The seeded sample data ([seed_sample_data]), with the clock at [now] *)

Definition seed_sample_data (now : Z) : Database := {|
  companies := [Company.mk 1 "Acme Corp"];
  warehouses := [Warehouse.mk 1 "Main Warehouse" 1; Warehouse.mk 2 "Overflow Warehouse" 1];
  suppliers := [Supplier.mk 1 "Supplier Corp" (Some "orders@supplier.com");
                Supplier.mk 2 "Another Supplies" (Some "hello@another.com")];
  products := [Product.mk 1 "Widget A" "WID-001" (Some "normal") (Some 1);
               Product.mk 2 "Gizmo B" "GIZ-002" (Some "fast-moving") (Some 2)];
  inventories := [Inventory.mk 1 1 1 5; Inventory.mk 2 1 2 0;
                  Inventory.mk 3 2 1 200; Inventory.mk 4 2 2 10];
  sales := [Sale.mk 1 1 10 (now - timedelta 5);
            Sale.mk 2 2 100 (now - timedelta 200);
            Sale.mk 3 2 60 (now - timedelta 10)]
|}.

(** Clock reading used in the examples: 2023-11-14 22:13:20 UTC. *)
Definition sample_now : Z := 1700000000000000.

(** One company, one warehouse, one product and one row of inventory; the
    product has the given type and a single sale, [age_days] days before
    [now]. *)
Definition one_product_data (now : Z) (product_type : option string)
    (stock sold age_days : Z) : Database := {|
  companies := [Company.mk 1 "Acme Corp"];
  warehouses := [Warehouse.mk 1 "W1" 1];
  suppliers := [];
  products := [Product.mk 1 "Widget A" "WID-001" product_type None];
  inventories := [Inventory.mk 1 1 1 stock];
  sales := [Sale.mk 1 1 sold (now - timedelta age_days)]
|}.

(** ** Well-formed snapshots

    A row of [Inventory] is in order when its quantity is a 64-bit integer,
    its product exists and the product's total of sales in the averaging
    window is below [2^1000] in absolute value. *)

Definition inventory_ok (db : Database) (now : Z) (inv : Inventory.t) : bool :=
  bool_decide (- 2 ^ 63 ≤ Inventory.quantity inv < 2 ^ 63) &&
  match query_get Product.id (products db) (Inventory.product_id inv) with
  | Some product =>
      bool_decide (Z.abs (total_sold_in_window
        (filter (λ s, now - timedelta SALES_AVG_DAYS ≤ Sale.created_at s)
           (Product_sales db product))) < 2 ^ 1000)
  | None => false
  end.

(** The product has a sale in the lookback window. *)
Definition has_recent_sales (db : Database) (now : Z) (product : Product.t) : Prop :=
  ∃ s, s ∈ Product_sales db product ∧ now - timedelta SALES_LOOKBACK_DAYS ≤ Sale.created_at s.

(** The alert [a] reports the inventory row [inv]. *)
Definition alert_of (a : Alert.t) (inv : Inventory.t) : Prop :=
  Alert.product_id a = Inventory.product_id inv ∧
  Alert.warehouse_id a = Inventory.warehouse_id inv ∧
  Alert.current_stock a = Inventory.quantity inv.

(** [inv] is filed under [key] in the dictionary. *)
Definition filed (prod_inv_map : list (Z * list Inventory.t)) (key : Z) (inv : Inventory.t) : Prop :=
  ∃ inv_list, (key, inv_list) ∈ prod_inv_map ∧ inv ∈ inv_list.

(** The alert [a] is what the view appends for the row [inv] of the product
    [product_id]. *)
Definition emits (db : Database) (now : Z) (product_id : Z) (inv : Inventory.t)
    (a : Alert.t) : Prop :=
  ∃ product avg,
    query_get Product.id (products db) product_id = Some product ∧
    get_recent_sales db product (now - timedelta SALES_LOOKBACK_DAYS) ≠ [] ∧
    avg_daily_sales (Product_sales db product) now SALES_AVG_DAYS = Return avg ∧
    inventory_alert db product (get_threshold_for_product product) avg inv = Return (Some a).

(** The body of the outer loop runs to its end on one item of the
    dictionary. *)
Definition item_runs (db : Database) (now : Z) (item : Z * list Inventory.t) : Prop :=
  ∃ product,
    query_get Product.id (products db) item.1 = Some product ∧
    (get_recent_sales db product (now - timedelta SALES_LOOKBACK_DAYS) ≠ [] →
     ∃ avg, avg_daily_sales (Product_sales db product) now SALES_AVG_DAYS = Return avg ∧
            ∀ inv, inv ∈ item.2 →
              ∃ o, inventory_alert db product (get_threshold_for_product product) avg inv
                   = Return o).

(** [prod_inv_map.get(key)]: the list filed under [key], if any. *)
Fixpoint dict_get (key : Z) (prod_inv_map : list (Z * list Inventory.t))
    : option (list Inventory.t) :=
  match prod_inv_map with
  | [] => None
  | (k, inv_list) :: rest => if decide (k = key) then Some inv_list else dict_get key rest
  end.

(** The row is one the view reports: its product exists and has a sale in
    the lookback window, and its quantity is below the threshold of the
    product. *)
Definition reportable (db : Database) (now : Z) (inv : Inventory.t) : bool :=
  match query_get Product.id (products db) (Inventory.product_id inv) with
  | Some product =>
      bool_decide (get_recent_sales db product (now - timedelta SALES_LOOKBACK_DAYS) ≠ []) &&
      bool_decide (Inventory.quantity inv < get_threshold_for_product product)
  | None => false
  end.

(** What one pass of the loops does with the row [inv]: [Some a] when it
    appends the alert [a], [None] when it appends nothing. *)
Definition row_result (db : Database) (now : Z) (inv : Inventory.t)
    (o : option Alert.t) : Prop :=
  ∃ product,
    query_get Product.id (products db) (Inventory.product_id inv) = Some product ∧
    match get_recent_sales db product (now - timedelta SALES_LOOKBACK_DAYS) with
    | [] => o = None
    | _ :: _ =>
        ∃ avg, avg_daily_sales (Product_sales db product) now SALES_AVG_DAYS = Return avg ∧
               inventory_alert db product (get_threshold_for_product product) avg inv
                 = Return o
    end.

(** A number that is neither an infinity nor a NaN. *)
Definition finite_number (x : number) : Prop :=
  match x with
  | Int _ | Float (S754_zero _) | Float (S754_finite _ _ _) => True
  | Float (S754_infinity _) | Float S754_nan => False
  end.

(** A company with one warehouse and one row of inventory, whose product does
    not exist. *)
Definition dangling_product_data : Database := {|
  companies := [Company.mk 1 "Acme Corp"];
  warehouses := [Warehouse.mk 1 "W1" 1];
  suppliers := [];
  products := [];
  inventories := [Inventory.mk 1 9 1 0];
  sales := []
|}.

(** The sample data with one more company, which holds its own stock of
    product 1 in its own warehouse. *)
Definition two_company_data (now : Z) : Database :=
  let db := seed_sample_data now in {|
  companies := companies db ++ [Company.mk 2 "Other Inc"];
  warehouses := warehouses db ++ [Warehouse.mk 3 "Other Warehouse" 2];
  suppliers := suppliers db;
  products := products db;
  inventories := Inventory.mk 5 1 3 1 :: inventories db;
  sales := sales db
|}.

(** ** One snapshot, read twice

    The primary keys of the tables that the view navigates by key. *)
Definition primary_keys_unique (db : Database) : Prop :=
  NoDup (Company.id <$> companies db) ∧ NoDup (Warehouse.id <$> warehouses db) ∧
  NoDup (Supplier.id <$> suppliers db) ∧ NoDup (Product.id <$> products db).

(** Two readings of one snapshot: the inventory query delivers its rows in
    the same order, the other tables hold the same rows in any order. *)
Definition same_snapshot (db db' : Database) : Prop :=
  companies db ≡ₚ companies db' ∧ warehouses db ≡ₚ warehouses db' ∧
  suppliers db ≡ₚ suppliers db' ∧ products db ≡ₚ products db' ∧
  sales db ≡ₚ sales db' ∧ inventories db = inventories db'.

(** The product identifiers of the rows, each at its first appearance. *)
Definition discovery_order (rows : list Inventory.t) : list Z :=
  foldl (λ seen inv,
           if decide (Inventory.product_id inv ∈ seen) then seen
           else seen ++ [Inventory.product_id inv]) [] rows.

(** The same snapshot with every table but the inventory read backwards. *)
Definition read_in_reverse (db : Database) : Database := {|
  companies := reverse (companies db);
  warehouses := reverse (warehouses db);
  suppliers := reverse (suppliers db);
  products := reverse (products db);
  inventories := inventories db;
  sales := reverse (sales db)
|}.

(** * Properties *)

(** ** Magnitudes of rounded binary64 results

    [Zdigits2 m + e] is the magnitude of [m * 2^e]: the position of its
    leading bit.  Rounding moves it up by at most one, and a quotient has the
    difference of the magnitudes of its operands, up to one. *)

Section float_bounds.
Local Abbreviation fexp := (SpecFloat.fexp float_prec float_emax).
Local Abbreviation emin := (-1074).

Lemma fexp_eq x : fexp x = Z.max (x - 53) emin.
Proof. reflexivity. Qed.

Lemma Zdigits2_log2 m : 0 < m → Zdigits2 m = Z.log2 m + 1.
Proof.
  destruct m as [|p|p]; try lia. intros _.
  assert (Hsize : ∀ q, digits2_pos q = Pos.size q) by (induction q; simpl; congruence).
  destruct p; simpl; rewrite ?Hsize; lia.
Qed.

Lemma Zdigits2_nonneg m : 0 ≤ Zdigits2 m.
Proof. destruct m; simpl; lia. Qed.

Lemma Zdigits2_pos m : 0 < m → 0 < Zdigits2 m.
Proof. destruct m; simpl; lia. Qed.

Lemma shr_1_m r : 0 ≤ shr_m r → shr_m (shr_1 r) = Z.shiftr (shr_m r) 1.
Proof.
  destruct r as [m rb sb]; simpl. rewrite <- Z.div2_spec.
  destruct m as [|[p|p|]|p]; simpl; intros; try reflexivity; lia.
Qed.

Lemma iter_shr_1_m p : ∀ r, 0 ≤ shr_m r →
  shr_m (SpecFloat.iter_pos shr_1 p r) = Z.shiftr (shr_m r) (Zpos p).
Proof.
  induction p as [p IH|p IH|]; intros r Hr; simpl.
  - assert (H1 : 0 ≤ shr_m (shr_1 r)) by (rewrite shr_1_m by done; apply Z.shiftr_nonneg; done).
    assert (H2 : 0 ≤ shr_m (SpecFloat.iter_pos shr_1 p (shr_1 r))) by (rewrite IH by done; apply Z.shiftr_nonneg; done).
    rewrite IH, IH, shr_1_m by done. rewrite !Z.shiftr_shiftr by lia. f_equal. lia.
  - assert (H2 : 0 ≤ shr_m (SpecFloat.iter_pos shr_1 p r)) by (rewrite IH by done; apply Z.shiftr_nonneg; done).
    rewrite IH, IH by done. rewrite !Z.shiftr_shiftr by lia. f_equal. lia.
  - apply shr_1_m. done.
Qed.

Lemma shr_fexp_spec m e l :
  0 ≤ m →
  let e' := Z.max e (fexp (Zdigits2 m + e)) in
  snd (shr_fexp float_prec float_emax m e l) = e' ∧
  shr_m (fst (shr_fexp float_prec float_emax m e l)) = Z.shiftr m (e' - e).
Proof.
  intros Hm e'. unfold shr_fexp, shr.
  assert (Hrec : shr_m (shr_record_of_loc m l) = m) by (destruct l as [|[]]; reflexivity).
  destruct (fexp (Zdigits2 m + e) - e) as [|p|p] eqn:Hn; simpl.
  - rewrite Hrec. replace (e' - e) with 0 by lia. split; [lia | by rewrite Z.shiftr_0_r].
  - rewrite iter_shr_1_m by (rewrite Hrec; done). rewrite Hrec.
    split; [lia | f_equal; lia].
  - rewrite Hrec. replace (e' - e) with 0 by lia. split; [lia | by rewrite Z.shiftr_0_r].
Qed.

Lemma round_nearest_even_cases m l :
  round_nearest_even m l = m ∨ round_nearest_even m l = m + 1.
Proof. destruct l as [|[]]; simpl; auto. destruct (Z.even m); auto. Qed.

(** Digits of a right shift. *)
Lemma Zdigits2_shiftr m n :
  0 ≤ m → 0 ≤ n → Zdigits2 (Z.shiftr m n) = Z.max 0 (Zdigits2 m - n).
Proof.
  intros Hm Hn. destruct (decide (m = 0)) as [->|Hm0].
  { rewrite Z.shiftr_0_l. simpl. lia. }
  assert (0 < m) by lia.
  destruct (decide (Z.shiftr m n = 0)) as [H0|H0].
  - rewrite H0. simpl. apply Z.shiftr_eq_0_iff in H0 as [->|[_ H0]]; [lia|].
    rewrite Zdigits2_log2 by done. lia.
  - assert (0 ≤ Z.shiftr m n) by (apply Z.shiftr_nonneg; done).
    rewrite !Zdigits2_log2 by lia. rewrite Z.log2_shiftr by lia.
    assert (¬ (Z.log2 m < n)); [|lia].
    intros Hlt. apply H0. apply Z.shiftr_eq_0_iff. right. lia.
Qed.

Lemma Zdigits2_succ m : 0 ≤ m → Zdigits2 (m + 1) ≤ Zdigits2 m + 1.
Proof.
  intros Hm. destruct (decide (m = 0)) as [->|]; [simpl; lia|].
  rewrite !Zdigits2_log2 by lia.
  pose proof (Z.log2_succ_le m). unfold Z.succ in *. lia.
Qed.

Lemma Zdigits2_mono m n : 0 ≤ m ≤ n → Zdigits2 m ≤ Zdigits2 n.
Proof.
  intros [Hm Hn]. destruct (decide (m = 0)) as [->|]; [apply Zdigits2_nonneg|].
  rewrite !Zdigits2_log2 by lia. pose proof (Z.log2_le_mono m n). lia.
Qed.

(** Rounding: sign, magnitude and overflow of the result. *)
Lemma binary_round_aux_bounds s m e l :
  0 ≤ m →
  match binary_round_aux float_prec float_emax s m e l with
  | S754_zero s' => s' = s ∧ (m = 0 ∨ Zdigits2 m + e ≤ emin)
  | S754_finite s' m' e' =>
      s' = s ∧
      Zdigits2 m + e ≤ Zpos (digits2_pos m') + e' ≤ Z.max (Zdigits2 m + e) emin + 1
  | S754_infinity s' => s' = s ∧ (971 < e ∨ 1023 < Zdigits2 m + e)
  | S754_nan => False
  end.
Proof.
  intros Hm. unfold binary_round_aux.
  pose proof (shr_fexp_spec m e l Hm) as [He1 Hm1].
  destruct (shr_fexp float_prec float_emax m e l) as [r1 e1]. simpl in He1, Hm1.
  rewrite <- He1 in Hm1.
  set (m2 := round_nearest_even (shr_m r1) (loc_of_shr_record r1)).
  assert (H1 : 0 ≤ shr_m r1) by (rewrite Hm1; apply Z.shiftr_nonneg; done).
  assert (Hd1 : Zdigits2 (shr_m r1) = Z.max 0 (Zdigits2 m - (e1 - e))).
  { rewrite Hm1. apply Zdigits2_shiftr; lia. }
  assert (H2 : 0 ≤ m2 ∧ Zdigits2 (shr_m r1) ≤ Zdigits2 m2 ≤ Zdigits2 (shr_m r1) + 1).
  { destruct (round_nearest_even_cases (shr_m r1) (loc_of_shr_record r1)) as [E|E];
      fold m2 in E; rewrite E.
    - lia.
    - pose proof (Zdigits2_succ (shr_m r1) H1).
      pose proof (Zdigits2_mono (shr_m r1) (shr_m r1 + 1)). lia. }
  destruct H2 as [H2 Hd2].
  pose proof (shr_fexp_spec m2 e1 loc_Exact H2) as [He2 Hm3].
  destruct (shr_fexp float_prec float_emax m2 e1 loc_Exact) as [r3 e2]. simpl in He2, Hm3.
  rewrite <- He2 in Hm3.
  assert (Hd3 : Zdigits2 (shr_m r3) = Z.max 0 (Zdigits2 m2 - (e2 - e1))).
  { rewrite Hm3. apply Zdigits2_shiftr; lia. }
  assert (H3 : 0 ≤ shr_m r3) by (rewrite Hm3; apply Z.shiftr_nonneg; done).
  pose proof (Zdigits2_nonneg m) as Hd0.
  rewrite fexp_eq in He1, He2.
  destruct (shr_m r3) as [|m'|m'] eqn:E3.
  - split; [done|]. simpl in Hd3.
    destruct (decide (m = 0)) as [|Hne]; [auto|right].
    pose proof (Zdigits2_pos m). lia.
  - change (Zdigits2 (Zpos m')) with (Zpos (digits2_pos m')) in Hd3.
    destruct (e2 <=? float_emax - float_prec) eqn:Hle.
    + split; [done|]. lia.
    + split; [done|]. apply Z.leb_gt in Hle. unfold float_emax, float_prec in Hle. lia.
  - lia.
Qed.

Lemma Zdigits2_spec m : 0 < m → 2 ^ (Zdigits2 m - 1) ≤ m < 2 ^ Zdigits2 m.
Proof.
  intros Hm. rewrite Zdigits2_log2 by done.
  replace (Z.log2 m + 1 - 1) with (Z.log2 m) by lia. apply Z.log2_spec. done.
Qed.

Lemma Zdigits2_lt_pow2 m k : 0 ≤ m → 0 ≤ k → m < 2 ^ k → Zdigits2 m ≤ k.
Proof.
  intros Hm Hk Hlt. destruct (decide (m = 0)) as [->|]; [simpl; lia|].
  rewrite Zdigits2_log2 by lia. apply Z.log2_lt_pow2 in Hlt; lia.
Qed.

Lemma Zdigits2_ge_pow2 m k : 0 ≤ k → 2 ^ k ≤ m → k + 1 ≤ Zdigits2 m.
Proof.
  intros Hk Hle. assert (0 < m) by (pose proof (Z.pow_pos_nonneg 2 k); lia).
  rewrite Zdigits2_log2 by lia. apply Z.log2_le_pow2 in Hle; lia.
Qed.

(** The quotient computed by the division core: its exponent and digits,
    in terms of the magnitudes of the operands. *)
Lemma SFdiv_core_binary_bounds (mx my : positive) (ex ey : Z) :
  let D := Zdigits2 (Zpos mx) + ex - (Zdigits2 (Zpos my) + ey) in
  let '(q, e', _) := SFdiv_core_binary float_prec float_emax (Zpos mx) ex (Zpos my) ey in
  0 ≤ q ∧ e' = Z.min (fexp D) (ex - ey) ∧
  Zdigits2 q + e' ≤ Z.max e' (D + 1) ∧
  (1 ≤ D - e' → D ≤ Zdigits2 q + e').
Proof.
  intros D. unfold SFdiv_core_binary.
  set (d1 := Zdigits2 (Zpos mx)) in *. set (d2 := Zdigits2 (Zpos my)) in *.
  fold D. set (e' := Z.min (fexp D) (ex - ey)).
  set (s := ex - ey - e').
  assert (Hs : 0 ≤ s) by (unfold s, e'; lia).
  set (m' := match s with Zpos _ => Z.shiftl (Zpos mx) s | Z0 => Zpos mx | Zneg _ => 0 end).
  assert (Hm' : m' = Zpos mx * 2 ^ s).
  { unfold m'. destruct s as [|p|p] eqn:Es; [simpl; lia| |lia].
    rewrite Z.shiftl_mul_pow2 by lia. done. }
  pose proof (Z.div_eucl_eq m' (Zpos my) ltac:(lia)) as Heq.
  pose proof (Z.mod_pos_bound m' (Zpos my) ltac:(lia)) as Hr.
  unfold Z.modulo in Hr.
  destruct (Z.div_eucl m' (Z.pos my)) as [q r].
  pose proof (Zdigits2_spec (Zpos mx) ltac:(lia)) as [Hx1 Hx2].
  pose proof (Zdigits2_spec (Zpos my) ltac:(lia)) as [Hy1 Hy2].
  fold d1 in Hx1, Hx2. fold d2 in Hy1, Hy2.
  assert (Hd1 : 0 < d1) by (apply Zdigits2_pos; lia).
  assert (Hd2 : 0 < d2) by (apply Zdigits2_pos; lia).
  assert (H2s : 0 < 2 ^ s) by (apply Z.pow_pos_nonneg; lia).
  assert (Hq : 0 ≤ q) by nia.
  assert (Hupper : m' < 2 ^ (d1 + s)) by (rewrite Z.pow_add_r by lia; nia).
  assert (Hlower : 2 ^ (d1 - 1 + s) ≤ m') by (rewrite Z.pow_add_r by lia; nia).
  assert (HD : D - e' = d1 + s - d2) by (unfold D, s; lia).
  split; [done|]. split; [done|]. split.
  - destruct (decide (0 ≤ d1 + s - d2 + 1)) as [Hk|Hk].
    + assert (Zdigits2 q ≤ d1 + s - d2 + 1); [|lia].
      apply Zdigits2_lt_pow2; [done..|].
      assert (q * 2 ^ (d2 - 1) < 2 ^ (d1 + s - d2 + 1) * 2 ^ (d2 - 1)); [|nia].
      rewrite <- Z.pow_add_r by lia. replace (d1 + s - d2 + 1 + (d2 - 1)) with (d1 + s) by lia.
      nia.
    + assert (q = 0) as ->; [|simpl; lia].
      assert (2 ^ (d1 + s) < 2 ^ (d2 - 1)) by (apply Z.pow_lt_mono_r; lia).
      nia.
  - intros HK. assert (d1 + s - d2 - 1 + 1 ≤ Zdigits2 q); [|lia].
    apply Zdigits2_ge_pow2; [lia|].
    assert (2 ^ (d1 + s - d2 - 1) * 2 ^ d2 ≤ m') as Hle.
    { rewrite <- Z.pow_add_r by lia. replace (d1 + s - d2 - 1 + d2) with (d1 - 1 + s) by lia. done. }
    assert (0 < 2 ^ (d1 + s - d2 - 1)) by (apply Z.pow_pos_nonneg; lia).
    nia.
Qed.

Lemma Zpos_iter_xO p d : Zpos (Pos.iter xO p d) = Z.shiftl (Zpos p) (Zpos d).
Proof.
  simpl. apply (Pos.iter_swap_gen _ _ Zpos xO (Z.mul 2)). intros a. reflexivity.
Qed.

(** Rounding of an exact binary number [p * 2^e]. *)
Lemma binary_round_bounds s p e :
  match binary_round float_prec float_emax s p e with
  | S754_zero s' => s' = s ∧ Zpos (digits2_pos p) + e ≤ emin
  | S754_finite s' m' e' =>
      s' = s ∧
      Zpos (digits2_pos p) + e ≤ Zpos (digits2_pos m') + e'
        ≤ Z.max (Zpos (digits2_pos p) + e) emin + 1
  | S754_infinity s' => s' = s ∧ (971 < e ∨ 1023 < Zpos (digits2_pos p) + e)
  | S754_nan => False
  end.
Proof.
  unfold binary_round, shl_align.
  set (d := Zpos (digits2_pos p)).
  destruct (fexp (d + e) - e) as [|k|k] eqn:Ek.
  - pose proof (binary_round_aux_bounds s (Zpos p) e loc_Exact ltac:(lia)) as H.
    change (Zdigits2 (Zpos p)) with d in H. rewrite fexp_eq in Ek.
    destruct (binary_round_aux _ _ _ _ _ _); intuition lia.
  - pose proof (binary_round_aux_bounds s (Zpos p) e loc_Exact ltac:(lia)) as H.
    change (Zdigits2 (Zpos p)) with d in H. rewrite fexp_eq in Ek.
    destruct (binary_round_aux _ _ _ _ _ _); intuition lia.
  - pose proof (binary_round_aux_bounds s (Zpos (Pos.iter xO p k)) (fexp (d + e)) loc_Exact
                  ltac:(lia)) as H.
    assert (Hd : Zdigits2 (Zpos (Pos.iter xO p k)) = d + Zpos k).
    { rewrite Zpos_iter_xO.
      assert (0 < Z.shiftl (Zpos p) (Zpos k)).
      { rewrite Z.shiftl_mul_pow2 by lia. pose proof (Z.pow_pos_nonneg 2 (Zpos k)). lia. }
      rewrite Zdigits2_log2, Z.log2_shiftl by lia.
      unfold d. change (Zpos (digits2_pos p)) with (Zdigits2 (Zpos p)).
      rewrite (Zdigits2_log2 (Zpos p)) by lia. lia. }
    rewrite Hd in H. rewrite fexp_eq in Ek, H.
    destruct (binary_round_aux _ _ _ _ _ _); intuition lia.
Qed.

(** A quotient of two finite binary numbers. *)
Lemma SFdiv_finite_bounds sx mx ex sy my ey :
  let D := Zpos (digits2_pos mx) + ex - (Zpos (digits2_pos my) + ey) in
  match SFdiv float_prec float_emax (S754_finite sx mx ex) (S754_finite sy my ey) with
  | S754_zero s' => s' = xorb sx sy ∧ D ≤ emin
  | S754_finite s' m' e' =>
      s' = xorb sx sy ∧
      (emin < D → D ≤ Zpos (digits2_pos m') + e') ∧
      Zpos (digits2_pos m') + e' ≤ Z.max (D + 1) emin + 1
  | S754_infinity s' => s' = xorb sx sy ∧ 1022 < D
  | S754_nan => False
  end.
Proof.
  intros D. unfold SFdiv.
  pose proof (SFdiv_core_binary_bounds mx my ex ey) as Hcore.
  change (Zdigits2 (Zpos mx)) with (Zpos (digits2_pos mx)) in Hcore.
  change (Zdigits2 (Zpos my)) with (Zpos (digits2_pos my)) in Hcore.
  fold D in Hcore.
  destruct (SFdiv_core_binary _ _ _ _ _ _) as [[q e'] l].
  destruct Hcore as (Hq & He' & Hhi & Hlo). rewrite fexp_eq in He'.
  pose proof (binary_round_aux_bounds (xorb sx sy) q e' l Hq) as H.
  assert (Hq0 : q = 0 → Zdigits2 q = 0) by (by intros ->).
  destruct (binary_round_aux _ _ _ _ _ _); [| |done|]; destruct H as [-> H];
    (split; [done|]); lia.
Qed.
End float_bounds.

(** ** Python arithmetic *)

Lemma float_of_int_small z :
  - 2 ^ 63 ≤ z < 2 ^ 63 →
  float_of_int z = Return (S754_zero false) ∨
  ∃ m e, float_of_int z = Return (S754_finite (bool_decide (z < 0)) m e) ∧
         Zpos (digits2_pos m) + e ≤ 65.
Proof.
  intros [Hz0 Hz]. unfold float_of_int, binary_normalize.
  destruct z as [|p|p]; [by left| |]; right.
  - assert (Hd : Zpos (digits2_pos p) ≤ 64) by (apply (Zdigits2_lt_pow2 (Zpos p)); lia).
    pose proof (binary_round_bounds false p 0) as H.
    destruct (binary_round _ _ _ _ _) as [s|s| |s m e]; [lia|lia|done|].
    destruct H as [-> H]. exists m, e. split; [done|lia].
  - assert (Hd : Zpos (digits2_pos p) ≤ 64) by (apply (Zdigits2_lt_pow2 (Zpos p)); lia).
    pose proof (binary_round_bounds true p 0) as H.
    destruct (binary_round _ _ _ _ _) as [s|s| |s m e]; [lia|lia|done|].
    destruct H as [-> H]. exists m, e. split; [done|lia].
Qed.

Lemma int_truediv_zero b : 0 < b → int_truediv 0 b = Return (S754_zero false).
Proof.
  intros Hb. unfold int_truediv. destruct (decide (b = 0)); [lia|].
  destruct b; try lia. reflexivity.
Qed.

(** [a / b] raises [ZeroDivisionError] exactly for a zero divisor, and never
    returns an infinity or a NaN. *)
Lemma int_truediv_ZeroDivisionError a b :
  int_truediv a b = Raise ZeroDivisionError ↔ b = 0.
Proof.
  unfold int_truediv. destruct (decide (b = 0)); [done|].
  split; [|done]. by destruct (SFdiv _ _ _ _).
Qed.

(** The quotient of an [int] by a positive [int]: a signed zero, or a finite
    double of the sign of the dividend, bounded below in magnitude when the
    dividend is positive. *)
Lemma int_truediv_by_pos a b f :
  0 < b →
  int_truediv a b = Return f →
  (∃ s, f = S754_zero s) ∨
  (∃ m e, f = S754_finite true m e) ∨
  (∃ m e, f = S754_finite false m e ∧ 0 < a ∧
          (-1074 < Zdigits2 a - Zdigits2 b → Zdigits2 a - Zdigits2 b ≤ Zpos (digits2_pos m) + e)).
Proof.
  intros Hb Hf. unfold int_truediv in Hf. destruct (decide (b = 0)); [lia|].
  destruct b as [|pb|pb]; try lia.
  destruct a as [|pa|pa]; simpl exact_of_int in Hf.
  - left. exists false. simpl in Hf. congruence.
  - pose proof (SFdiv_finite_bounds false pa 0 false pb 0) as H.
    destruct (SFdiv _ _ _ _) as [s|s| |s m e]; [|done|done|].
    + left. exists s. congruence.
    + injection Hf as <-. destruct H as (-> & Hlo & _). right. right.
      exists m, e. split; [done|]. split; [lia|]. simpl Zdigits2. lia.
  - pose proof (SFdiv_finite_bounds true pa 0 false pb 0) as H.
    destruct (SFdiv _ _ _ _) as [s|s| |s m e]; [|done|done|].
    + left. exists s. congruence.
    + injection Hf as <-. destruct H as (-> & _). right. left. by exists m, e.
Qed.

(** [a / b] does not overflow when the dividend is below [2^1000] in absolute
    value. *)
Lemma int_truediv_no_overflow a b :
  b ≠ 0 → Z.abs a < 2 ^ 1000 → ∃ f, int_truediv a b = Return f.
Proof.
  intros Hb Ha. unfold int_truediv. destruct (decide (b = 0)); [done|].
  assert (Hda : Zdigits2 a ≤ 1000).
  { destruct a; [done| |]; apply (Zdigits2_lt_pow2 (Zpos _)); lia. }
  assert (Hdb : 0 < Zdigits2 b) by (destruct b; done).
  destruct a as [|pa|pa]; [destruct b; try done; by eexists|..];
    destruct b as [|pb|pb]; try done; simpl exact_of_int;
    match goal with
    | |- context [SFdiv _ _ (S754_finite ?sx ?mx 0) (S754_finite ?sy ?my 0)] =>
        pose proof (SFdiv_finite_bounds sx mx 0 sy my 0) as H; cbv zeta in H;
        destruct (SFdiv _ _ _ _); [by eexists| |done|by eexists]
    end; simpl Zdigits2 in *; lia.
Qed.

(** Dividing a 64-bit [int] by a positive finite double that is not tiny
    gives a finite double; its floor is an [int], non-negative when the
    dividend is. *)
Lemma floor_truediv_by_pos current_stock m e :
  - 2 ^ 63 ≤ current_stock < 2 ^ 63 →
  -900 ≤ Zpos (digits2_pos m) + e →
  ∃ q d, truediv current_stock (Float (S754_finite false m e)) = Return q ∧
         floor q = Return d ∧ (0 ≤ current_stock → 0 ≤ d).
Proof.
  intros Hstock Hmag. unfold truediv.
  destruct (float_of_int_small current_stock Hstock) as [->|(mx & ex & -> & Hx)];
    cbn [mbind py_bind fmap py_fmap float_truediv].
  - exists (Float (S754_zero false)), 0. done.
  - pose proof (SFdiv_finite_bounds (bool_decide (current_stock < 0)) mx ex false m e) as H.
    cbv zeta in H.
    destruct (SFdiv _ _ _ _) as [s|s| |s m' e'] eqn:Hdiv; [|lia|done|].
    + exists (Float (S754_zero s)), 0. done.
    + destruct H as (-> & _). eexists _, _. split; [done|]. split; [done|].
      intros Hpos. rewrite bool_decide_false by lia.
      simpl. apply Z.shiftl_nonneg. lia.
Qed.

(** ** Average daily sales and days until stockout *)

(** C3: the average daily sales never divide by zero; they are exactly 0
    when the window is not positive or when no sale is dated at or after
    [now - window_days], and otherwise the quotient of the total of the
    qualifying quantities by [window_days]. *)
Theorem avg_daily_sales_no_division_by_zero (product_sales : list Sale.t) (now window_days : Z) :
  let sales_for_avg :=
    filter (λ s, now - timedelta window_days ≤ Sale.created_at s) product_sales in
  avg_daily_sales product_sales now window_days ≠ Raise ZeroDivisionError ∧
  (window_days ≤ 0 → avg_daily_sales product_sales now window_days = Return (Int 0)) ∧
  (0 < window_days → sales_for_avg = [] →
     avg_daily_sales product_sales now window_days = Return (Float (S754_zero false))) ∧
  (∀ r, (window_days ≤ 0 ∨ sales_for_avg = []) →
     avg_daily_sales product_sales now window_days = Return r → number_eq0 r = true) ∧
  (0 < window_days →
     avg_daily_sales product_sales now window_days =
       Float <$> int_truediv (foldr Z.add 0 (Sale.quantity <$> sales_for_avg)) window_days).
Proof.
  intros sales_for_avg. unfold avg_daily_sales. fold sales_for_avg.
  assert (Hempty : 0 < window_days → sales_for_avg = [] →
    Float <$> int_truediv (total_sold_in_window sales_for_avg) window_days
      = Return (Float (S754_zero false))).
  { intros Hw ->. unfold total_sold_in_window. simpl foldr.
    by rewrite int_truediv_zero. }
  destruct (decide (0 < window_days)) as [Hw|Hw].
  - split.
    { intros Hz.
      destruct (int_truediv _ window_days) as [f|e] eqn:Hdiv; [done|].
      injection Hz as ->. apply int_truediv_ZeroDivisionError in Hdiv. lia. }
    split; [lia|]. split; [auto|]. split; [|done].
    intros r [?|He]; [lia|]. rewrite Hempty by done. by intros [= <-].
  - split; [done|]. split; [done|]. split; [lia|]. split; [|lia].
    by intros r _ [= <-].
Qed.

Example avg_daily_sales_examples :
  avg_daily_sales [Sale.mk 1 1 10 (sample_now - timedelta 5)] sample_now 30
    = Return (Float (S754_finite false 6004799503160661 (-54))) ∧
  avg_daily_sales [Sale.mk 1 1 10 (sample_now - timedelta 5)] sample_now 0 = Return (Int 0) ∧
  avg_daily_sales [Sale.mk 1 1 10 (sample_now - timedelta 5)] sample_now (-3) = Return (Int 0) ∧
  avg_daily_sales [Sale.mk 1 1 10 (sample_now - timedelta 5)] sample_now 2
    = Return (Float (S754_zero false)).
Proof. by vm_compute. Qed.

(** The rates the view computes: the [int] zero, a signed zero, a negative
    double, or a positive double that is not tiny. *)
Lemma avg_daily_sales_cases product_sales now window_days rate :
  window_days < 2 ^ 63 →
  avg_daily_sales product_sales now window_days = Return rate →
  rate = Int 0 ∨ (∃ s, rate = Float (S754_zero s)) ∨
  (∃ m e, rate = Float (S754_finite true m e)) ∨
  (∃ m e, rate = Float (S754_finite false m e) ∧ -900 ≤ Zpos (digits2_pos m) + e).
Proof.
  intros Hw. unfold avg_daily_sales.
  destruct (decide (0 < window_days)) as [Hpos|_]; [|intros [= <-]; by left].
  destruct (int_truediv _ window_days) as [f|] eqn:Hdiv; [|done].
  intros [= <-]. right.
  destruct (int_truediv_by_pos _ _ _ Hpos Hdiv)
    as [[s ->]|[(m & e & ->)|(m & e & -> & Htotal & Hmag)]]; [eauto..|].
  right. right. exists m, e. split; [done|].
  assert (Zdigits2 window_days ≤ 63) by (apply Zdigits2_lt_pow2; lia).
  pose proof (Zdigits2_pos _ Htotal). lia.
Qed.

(** C2: for a stock level that is not negative and a rate computed by the
    view, the estimate is [None] exactly when the rate is at most zero;
    otherwise it is the floor of the quotient of the stock by the rate, and
    is not negative. *)
Theorem days_until_stockout_spec product_sales now window_days current_stock rate :
  0 ≤ current_stock < 2 ^ 63 →
  window_days < 2 ^ 63 →
  avg_daily_sales product_sales now window_days = Return rate →
  (days_until_stockout current_stock rate = Return None ↔ number_le0 rate = true) ∧
  (number_le0 rate = false →
   ∃ q d, truediv current_stock rate = Return q ∧ floor q = Return d ∧
          days_until_stockout current_stock rate = Return (Some d) ∧ 0 ≤ d).
Proof.
  intros Hstock Hw Hrate. unfold days_until_stockout.
  destruct (avg_daily_sales_cases _ _ _ _ Hw Hrate)
    as [->|[[s ->]|[(m & e & ->)|(m & e & -> & Hmag)]]]; try done.
  destruct (floor_truediv_by_pos current_stock m e) as (q & d & Hq & Hd & Hpos);
    [lia|done|].
  cbn [number_gt0 number_le0 SFltb SFleb SFcompare]. rewrite Hq. simpl. rewrite Hd. simpl.
  split; [done|]. intros _. exists q, d. auto with lia.
Qed.

(** The view's own rate for one sale of 10 units in the window, and a stock
    of 5. *)
Lemma days_until_stockout_spec_witness :
  let rate := Float (S754_finite false 6004799503160661 (-54)) in
  (days_until_stockout 5 rate = Return None ↔ number_le0 rate = true) ∧
  (number_le0 rate = false →
   ∃ q d, truediv 5 rate = Return q ∧ floor q = Return d ∧
          days_until_stockout 5 rate = Return (Some d) ∧ 0 ≤ d).
Proof.
  apply (days_until_stockout_spec [Sale.mk 1 1 10 0] 0 SALES_AVG_DAYS 5).
  - split; [lia|reflexivity].
  - reflexivity.
  - reflexivity.
Defined.

(** The floor is taken of the double quotient, which can fall below the
    exact one: 23 units in stock and 23 sold in the window. *)
Example days_until_stockout_rounds_down :
  avg_daily_sales [Sale.mk 1 1 23 0] 0 SALES_AVG_DAYS
    = Return (Float (S754_finite false 6905519428634761 (-53))) ∧
  days_until_stockout 23 (Float (S754_finite false 6905519428634761 (-53)))
    = Return (Some 29) ∧
  (23 * 30) / 23 = 30.
Proof. by vm_compute. Qed.

(** ** Thresholds *)

Lemma THRESHOLDS_BY_TYPE_lookup label t :
  THRESHOLDS_BY_TYPE !! label = Some t →
  (label = "fast-moving" ∧ t = 50) ∨ (label = "normal" ∧ t = 20)
  ∨ (label = "slow-moving" ∧ t = 5).
Proof.
  unfold THRESHOLDS_BY_TYPE.
  rewrite !lookup_insert_Some, lookup_singleton_Some.
  intros [[<- <-]|[_ [[<- <-]|[_ [<- <-]]]]]; auto.
Qed.

Lemma get_threshold_for_product_bounds product :
  0 < get_threshold_for_product product ≤ 50.
Proof.
  unfold get_threshold_for_product.
  destruct (Product.product_type product) as [label|]; simpl; [|lia].
  destruct (THRESHOLDS_BY_TYPE !! label) as [t|] eqn:E; simpl; [|lia].
  apply THRESHOLDS_BY_TYPE_lookup in E. lia.
Qed.

(** C5: the threshold is defined for every product type: the three
    configured labels have their positive thresholds, every other label, the
    empty one and [None] included, has the default 10, and no configured
    threshold is 10. *)
Theorem get_threshold_for_product_total (product : Product.t) :
  let label := Product.product_type product in
  let threshold := get_threshold_for_product product in
  (label = Some "fast-moving" → threshold = 50) ∧
  (label = Some "normal" → threshold = 20) ∧
  (label = Some "slow-moving" → threshold = 5) ∧
  (label ∉ [Some "fast-moving"; Some "normal"; Some "slow-moving"] → threshold = 10) ∧
  (label = Some "" ∨ label = None → threshold = 10) ∧
  0 < threshold ∧
  (∀ configured t, THRESHOLDS_BY_TYPE !! configured = Some t →
     0 < t ∧ t ≠ 10 ∧
     (label = Some configured → threshold = t)).
Proof.
  intros label threshold. unfold threshold, get_threshold_for_product. fold label.
  pose proof THRESHOLDS_BY_TYPE_lookup as Hcfg.
  assert (Hother : ∀ s, Some s ∉ [Some "fast-moving"; Some "normal"; Some "slow-moving"] →
            THRESHOLDS_BY_TYPE !! s = None).
  { intros s Hs. destruct (THRESHOLDS_BY_TYPE !! s) as [t|] eqn:E; [|done].
    exfalso. apply Hs. apply Hcfg in E as [[-> _]|[[-> _]|[-> _]]]; repeat constructor. }
  split; [by intros ->|]. split; [by intros ->|]. split; [by intros ->|].
  split; [|split; [|split]].
  - destruct label as [s|]; [|done]. intros Hs. simpl. by rewrite Hother.
  - intros [->| ->]; done.
  - destruct label as [s|]; [|done]. simpl.
    destruct (THRESHOLDS_BY_TYPE !! s) as [t|] eqn:E; [|done].
    apply Hcfg in E. simpl. lia.
  - intros configured t Ht. pose proof (Hcfg _ _ Ht).
    split; [lia|]. split; [lia|]. intros ->. simpl. by rewrite Ht.
Qed.

(** ** Queries *)

Lemma query_get_Some {A} (pk : A → Z) table key row :
  query_get pk table key = Some row → row ∈ table ∧ pk row = key.
Proof.
  unfold query_get. intros H.
  assert (Hin : row ∈ filter (λ r, pk r = key) table).
  { destruct (filter _ table); simplify_eq/=. left. }
  apply list_elem_of_filter in Hin. tauto.
Qed.

Lemma query_get_is_Some {A} (pk : A → Z) table key row :
  row ∈ table → pk row = key → ∃ row', query_get pk table key = Some row'.
Proof.
  intros Hin Hpk. unfold query_get.
  assert (Hf : row ∈ filter (λ r, pk r = key) table) by (apply list_elem_of_filter; done).
  destruct (filter _ table) as [|row' ?]; [by apply elem_of_nil in Hf|by exists row'].
Qed.

Lemma company_inventories_warehouse db company inv :
  inv ∈ company_inventories db company →
  ∃ w, Inventory_warehouse db inv = Some w ∧ Warehouse.id w = Inventory.warehouse_id inv.
Proof.
  unfold company_inventories. rewrite list_elem_of_filter. intros [Hw _].
  apply list_elem_of_fmap in Hw as (w & Hid & Hin).
  apply list_elem_of_filter in Hin as [_ Hin].
  destruct (query_get_is_Some Warehouse.id (warehouses db) (Inventory.warehouse_id inv) w)
    as [w' Hw']; [done..|].
  exists w'. split; [done|]. by apply query_get_Some in Hw' as [_ ?].
Qed.

(** ** The grouping of the inventory rows by product *)

Lemma filed_setdefault_append key inv prod_inv_map k x :
  filed (setdefault_append key inv prod_inv_map) k x ↔
  filed prod_inv_map k x ∨ (k = key ∧ x = inv).
Proof.
  unfold filed. induction prod_inv_map as [|[k' l'] rest IH]; simpl.
  - setoid_rewrite elem_of_nil. setoid_rewrite list_elem_of_singleton. split.
    + intros (l & [= -> ->] & Hx). right. split; [done|].
      by apply list_elem_of_singleton in Hx.
    + intros [(l & [] & _)|[-> ->]]. exists [inv]. split; [done|left].
  - destruct (decide (k' = key)) as [->|Hne].
    + setoid_rewrite elem_of_cons. split.
      * intros (l & [[= -> ->]|Hin] & Hx).
        -- apply elem_of_app in Hx as [Hx|Hx].
           ++ left. exists l'. auto.
           ++ right. split; [done|]. by apply list_elem_of_singleton in Hx.
        -- left. exists l. auto.
      * intros [(l & [[= -> ->]|Hin] & Hx)|[-> ->]].
        -- exists (l' ++ [inv]). split; [auto|]. apply elem_of_app. auto.
        -- exists l. auto.
        -- exists (l' ++ [inv]). split; [auto|]. apply elem_of_app. right. left.
    + setoid_rewrite elem_of_cons. split.
      * intros (l & [[= -> ->]|Hin] & Hx).
        -- left. exists l'. auto.
        -- destruct (proj1 IH) as [(l0 & ? & ?)|?]; [by exists l| |by right].
           left. exists l0. auto.
      * intros [(l & [[= -> ->]|Hin] & Hx)|[-> ->]].
        -- exists l'. auto.
        -- destruct (proj2 IH) as (l0 & ? & ?); [left; by exists l|]. exists l0. auto.
        -- destruct (proj2 IH) as (l0 & ? & ?); [by right|]. exists l0. auto.
Qed.

Lemma filed_group_inventories rows : ∀ prod_inv_map k x,
  filed (group_inventories rows prod_inv_map) k x ↔
  filed prod_inv_map k x ∨ (x ∈ rows ∧ Inventory.product_id x = k).
Proof.
  induction rows as [|inv rows IH]; intros m k x; simpl.
  - rewrite elem_of_nil. tauto.
  - rewrite IH, filed_setdefault_append, elem_of_cons. intuition (subst; auto).
Qed.

Lemma filed_group_inventories_nil rows k x :
  filed (group_inventories rows []) k x ↔ x ∈ rows ∧ Inventory.product_id x = k.
Proof.
  rewrite filed_group_inventories. unfold filed. setoid_rewrite elem_of_nil.
  split; [intros [(? & [] & _)|?]; done | auto].
Qed.

(** ** The loops of the view *)

Section loops.
Variables (db : Database) (now : Z).

Lemma inventory_alert_Some product threshold avg inv a :
  inventory_alert db product threshold avg inv = Return (Some a) ↔
  Inventory.quantity inv < threshold ∧
  ∃ days w, days_until_stockout (Inventory.quantity inv) avg = Return days ∧
            Inventory_warehouse db inv = Some w ∧
            a = Alert.mk (Product.id product) (Product.name product) (Product.sku product)
                  (Warehouse.id w) (Warehouse.name w) (Inventory.quantity inv) threshold
                  days (supplier_obj (Product_supplier db product)).
Proof.
  unfold inventory_alert.
  destruct (decide (Inventory.quantity inv < threshold)) as [Hlt|Hlt].
  - destruct (days_until_stockout _ avg) as [days|e]; simpl.
    + destruct (Inventory_warehouse db inv) as [w|].
      * split; [intros [= <-]; eauto 6|]. by intros (_ & ? & ? & [= <-] & [= <-] & ->).
      * split; [done|]. by intros (_ & ? & ? & _ & [=] & _).
    + split; [done|]. by intros (_ & ? & ? & [=] & _).
  - split; [done|]. tauto.
Qed.

Lemma inventory_alert_returns product threshold avg inv :
  (Inventory.quantity inv < threshold →
   ∃ days, days_until_stockout (Inventory.quantity inv) avg = Return days) →
  is_Some (Inventory_warehouse db inv) →
  ∃ o, inventory_alert db product threshold avg inv = Return o.
Proof.
  intros Hdays [w Hw]. unfold inventory_alert.
  destruct (decide (Inventory.quantity inv < threshold)) as [Hlt|Hlt]; [|by eexists].
  destruct (Hdays Hlt) as [days ->]. simpl. rewrite Hw. by eexists.
Qed.

Lemma inventory_loop_spec product threshold avg inv_list : ∀ alerts,
  ((∀ inv, inv ∈ inv_list → ∃ o, inventory_alert db product threshold avg inv = Return o) →
   ∃ out, inventory_loop db product threshold avg inv_list alerts = Return out) ∧
  (∀ out, inventory_loop db product threshold avg inv_list alerts = Return out →
     (∀ inv, inv ∈ inv_list → ∃ o, inventory_alert db product threshold avg inv = Return o) ∧
     ∀ a, a ∈ out ↔
          a ∈ alerts ∨
          ∃ inv, inv ∈ inv_list ∧ inventory_alert db product threshold avg inv = Return (Some a)).
Proof.
  induction inv_list as [|inv rest IH]; intros alerts; simpl.
  - split; [by eexists|]. intros out [= <-]. split.
    + intros inv Hin. by apply elem_of_nil in Hin.
    + intros a. split; [auto|]. intros [?|(inv & Hin & _)]; [done|by apply elem_of_nil in Hin].
  - split.
    + intros Hall. destruct (Hall inv) as [o ->]; [left|]. simpl.
      apply IH. intros inv' Hin. apply Hall. by right.
    + intros out Hout.
      destruct (inventory_alert db product threshold avg inv) as [o|e] eqn:Hinv; [|done].
      simpl in Hout. apply IH in Hout as [Hall Hmem]. split.
      * intros inv' [->|Hin]%elem_of_cons; [by eexists|auto].
      * intros a. rewrite Hmem, elem_of_app. split.
        -- intros [[?|Ho]|(inv' & Hin & Ha)]; [by left| |].
           ++ right. exists inv. split; [left|].
              destruct o; simpl in Ho; [|by apply elem_of_nil in Ho].
              apply list_elem_of_singleton in Ho as ->. done.
           ++ right. exists inv'. split; [by right|done].
        -- intros [?|(inv' & [->|Hin]%elem_of_cons & Ha)]; [by left; left| |].
           ++ left. right. rewrite Hinv in Ha. injection Ha as ->. simpl. left.
           ++ right. by exists inv'.
Qed.

Lemma filed_cons k l rest k' x :
  filed ((k, l) :: rest) k' x ↔ (k' = k ∧ x ∈ l) ∨ filed rest k' x.
Proof.
  unfold filed. setoid_rewrite elem_of_cons. split.
  - intros (l' & [[= -> ->]|Hin] & Hx); [by left|right; by exists l'].
  - intros [[-> Hx]|(l' & Hin & Hx)]; [exists l; auto|exists l'; auto].
Qed.

Lemma product_loop_spec items : ∀ alerts,
  (Forall (item_runs db now) items → ∃ out, product_loop db now items alerts = Return out) ∧
  (∀ out, product_loop db now items alerts = Return out →
     Forall (item_runs db now) items ∧
     ∀ a, a ∈ out ↔
          a ∈ alerts ∨ ∃ product_id inv, filed items product_id inv ∧ emits db now product_id inv a).
Proof.
  induction items as [|[pid inv_list] rest IH]; intros alerts; simpl.
  - split; [by eexists|]. intros out [= <-]. split; [constructor|].
    intros a. split; [auto|]. intros [?|(k & inv & (l & Hin & _) & _)]; [done|].
    by apply elem_of_nil in Hin.
  - split.
    + intros Hall. apply Forall_cons in Hall as [(product & Hget & Hrun) Hrest].
      simpl in Hget, Hrun. rewrite Hget.
      destruct (get_recent_sales db product _) as [|s0 recent] eqn:Hrecent; [by apply IH|].
      destruct Hrun as (avg & -> & Hinv); [done|]. simpl.
      destruct (proj1 (inventory_loop_spec product (get_threshold_for_product product)
                         avg inv_list alerts) Hinv) as [alerts' ->].
      simpl. by apply IH.
    + intros out Hout.
      destruct (query_get Product.id (products db) pid) as [product|] eqn:Hget; [|done].
      destruct (get_recent_sales db product _) as [|s0 recent] eqn:Hrecent.
      * apply IH in Hout as [Hrest Hmem]. split.
        -- constructor; [|done]. exists product. split; [done|]. simpl. by rewrite Hrecent.
        -- intros a. rewrite Hmem. setoid_rewrite filed_cons. split.
           ++ intros [?|(k & inv & ? & ?)]; [by left|right; exists k, inv; auto].
           ++ intros [?|(k & inv & [[-> _]|?] & Hemit)]; [by left| |right; by exists k, inv].
              destruct Hemit as (product' & avg & Hget' & Hne & _).
              rewrite Hget in Hget'. injection Hget' as <-. by rewrite Hrecent in Hne.
      * destruct (avg_daily_sales _ now SALES_AVG_DAYS) as [avg|e] eqn:Havg; [|done].
        simpl in Hout.
        destruct (inventory_loop db product _ avg inv_list alerts) as [alerts'|e] eqn:Hloop;
          [|done].
        simpl in Hout. apply IH in Hout as [Hrest Hmem].
        apply inventory_loop_spec in Hloop as [Hinv Hmem'].
        split.
        -- constructor; [|done]. exists product. split; [done|]. intros _. by exists avg.
        -- intros a. rewrite Hmem, Hmem'. setoid_rewrite filed_cons. split.
           ++ intros [[?|(inv & Hin & Ha)]|(k & inv & ? & ?)]; [by left| |].
              ** right. exists pid, inv. split; [by left|].
                 exists product, avg. rewrite Hrecent. done.
              ** right. exists k, inv. auto.
           ++ intros [?|(k & inv & [[-> Hin]|?] & Hemit)]; [by left; left| |].
              ** destruct Hemit as (product' & avg' & Hget' & _ & Havg' & Ha).
                 rewrite Hget in Hget'. injection Hget' as <-.
                 rewrite Havg in Havg'. injection Havg' as <-.
                 left. right. by exists inv.
              ** right. by exists k, inv.
Qed.
End loops.

(** ** The view *)

Lemma days_until_stockout_returns product_sales now window_days current_stock rate :
  - 2 ^ 63 ≤ current_stock < 2 ^ 63 →
  window_days < 2 ^ 63 →
  avg_daily_sales product_sales now window_days = Return rate →
  ∃ days, days_until_stockout current_stock rate = Return days.
Proof.
  intros Hstock Hw Hrate. unfold days_until_stockout.
  destruct (avg_daily_sales_cases _ _ _ _ Hw Hrate)
    as [->|[[s ->]|[(m & e & ->)|(m & e & -> & Hmag)]]]; [by eexists..|].
  destruct (floor_truediv_by_pos current_stock m e) as (q & d & Hq & Hd & _); [done..|].
  cbn [number_gt0 SFltb SFcompare]. rewrite Hq. simpl. rewrite Hd. by eexists.
Qed.

Lemma setdefault_append_nonempty key inv prod_inv_map :
  Forall (λ item, item.2 ≠ []) prod_inv_map →
  Forall (λ item, item.2 ≠ []) (setdefault_append key inv prod_inv_map).
Proof.
  induction 1 as [|[k l] rest Hl Hrest IH]; simpl.
  - by repeat constructor.
  - destruct (decide (k = key)).
    + constructor; [|done]. simpl. by destruct l.
    + by constructor.
Qed.

Lemma group_inventories_nonempty rows : ∀ prod_inv_map,
  Forall (λ item, item.2 ≠ []) prod_inv_map →
  Forall (λ item, item.2 ≠ []) (group_inventories rows prod_inv_map).
Proof.
  induction rows as [|inv rows IH]; intros m Hm; simpl; [done|].
  by apply IH, setdefault_append_nonempty.
Qed.

Lemma inventory_ok_spec db now inv :
  inventory_ok db now inv = true →
  - 2 ^ 63 ≤ Inventory.quantity inv < 2 ^ 63 ∧
  ∃ product avg,
    query_get Product.id (products db) (Inventory.product_id inv) = Some product ∧
    avg_daily_sales (Product_sales db product) now SALES_AVG_DAYS = Return avg.
Proof.
  unfold inventory_ok. intros [Hq Hp]%andb_true_iff.
  apply bool_decide_eq_true in Hq. split; [done|].
  destruct (query_get _ _ _) as [product|]; [|done].
  apply bool_decide_eq_true in Hp.
  destruct (int_truediv_no_overflow _ SALES_AVG_DAYS ltac:(done) Hp) as [f Hf].
  exists product, (Float f). split; [done|].
  unfold avg_daily_sales. rewrite decide_True by done. by rewrite Hf.
Qed.

Section view.
Variables (db : Database) (now company_id : Z) (company : Company.t).
Hypothesis Hcompany : query_get Company.id (companies db) company_id = Some company.

Let rows := company_inventories db company.

Lemma low_stock_alerts_found :
  low_stock_alerts db now company_id =
    alerts ← product_loop db now (group_inventories rows []) [];
    Return (AlertsBody alerts (Z.of_nat (length alerts)), 200).
Proof. unfold low_stock_alerts, Company_query_get. by rewrite Hcompany. Qed.

(** When the view answers with alerts, they are those its loop body appends
    for the rows held by the company. *)
Lemma low_stock_alerts_Return alerts total status :
  low_stock_alerts db now company_id = Return (AlertsBody alerts total, status) →
  total = Z.of_nat (length alerts) ∧ status = 200 ∧
  ∀ a, a ∈ alerts ↔ ∃ inv, inv ∈ rows ∧ emits db now (Inventory.product_id inv) inv a.
Proof.
  rewrite low_stock_alerts_found.
  destruct (product_loop db now _ []) as [out|e] eqn:Hloop; [|done].
  intros [= -> <- <-]. split; [done|]. split; [done|].
  apply product_loop_spec in Hloop as [_ Hmem].
  intros a. rewrite Hmem. split.
  - intros [Hnil|(k & inv & [Hin <-]%filed_group_inventories_nil & Hemit)];
      [by apply elem_of_nil in Hnil|by exists inv].
  - intros (inv & Hin & Hemit). right. exists (Inventory.product_id inv), inv.
    by rewrite filed_group_inventories_nil.
Qed.

(** On a well-formed snapshot the view answers with alerts. *)
Lemma low_stock_alerts_answers :
  forallb (inventory_ok db now) rows = true →
  ∃ alerts, low_stock_alerts db now company_id
            = Return (AlertsBody alerts (Z.of_nat (length alerts)), 200).
Proof.
  intros Hok.
  assert (Hrow : ∀ inv, inv ∈ rows → inventory_ok db now inv = true).
  { intros inv Hin. eapply forallb_forall in Hok; [done|]. by apply list_elem_of_In. }
  rewrite low_stock_alerts_found.
  destruct (proj1 (product_loop_spec db now (group_inventories rows []) []))
    as [out ->]; [|by eexists].
  pose proof (group_inventories_nonempty rows [] ltac:(constructor)) as Hne.
  apply Forall_forall. intros [k l] Hitem.
  assert (Hl : l ≠ []) by (eapply Forall_forall in Hne; [|done]; done).
  destruct l as [|inv0 l0]; [done|].
  assert (Hin0 : inv0 ∈ rows ∧ Inventory.product_id inv0 = k).
  { apply filed_group_inventories_nil. exists (inv0 :: l0). split; [done|left]. }
  destruct Hin0 as [Hin0 <-].
  destruct (inventory_ok_spec _ _ _ (Hrow _ Hin0)) as (_ & product & avg & Hget & Havg).
  exists product. split; [done|]. intros _. exists avg. split; [done|].
  intros inv Hin. simpl in Hin.
  assert (Hinv : inv ∈ rows).
  { apply (filed_group_inventories_nil rows (Inventory.product_id inv0)).
    by exists (inv0 :: l0). }
  destruct (inventory_ok_spec _ _ _ (Hrow _ Hinv)) as (Hq & _).
  apply inventory_alert_returns.
  - intros _.
    apply (days_until_stockout_returns (Product_sales db product) now SALES_AVG_DAYS);
      [exact Hq|reflexivity|exact Havg].
  - destruct (company_inventories_warehouse db company inv Hinv) as (w & -> & _). by eexists.
Qed.
End view.

Lemma has_recent_sales_iff db now product :
  has_recent_sales db now product ↔
  get_recent_sales db product (now - timedelta SALES_LOOKBACK_DAYS) ≠ [].
Proof.
  unfold has_recent_sales, get_recent_sales. split.
  - intros (s & Hin & Hs) Hnil.
    assert (Hf : s ∈ filter (λ s, now - timedelta SALES_LOOKBACK_DAYS ≤ Sale.created_at s)
                   (Product_sales db product)) by (by apply list_elem_of_filter).
    rewrite Hnil in Hf. by apply elem_of_nil in Hf.
  - intros Hne. destruct (filter _ _) as [|s l] eqn:Hf; [done|].
    assert (Hin : s ∈ s :: l) by left. rewrite <- Hf in Hin.
    apply list_elem_of_filter in Hin as [? ?]. by exists s.
Qed.

Lemma avg_daily_sales_stale product_sales now window_days :
  0 < window_days →
  (∀ s, s ∈ product_sales → Sale.created_at s < now - timedelta window_days) →
  avg_daily_sales product_sales now window_days = Return (Float (S754_zero false)).
Proof.
  intros Hw Hstale. unfold avg_daily_sales. rewrite decide_True by done.
  assert (filter (λ s, now - timedelta window_days ≤ Sale.created_at s) product_sales = [])
    as ->.
  { induction product_sales as [|s l IH]; [done|].
    rewrite filter_cons_False by (pose proof (Hstale s ltac:(left)); lia).
    apply IH. intros s' Hs'. apply Hstale. by right. }
  unfold total_sold_in_window. simpl. by rewrite int_truediv_zero.
Qed.

(** The alerts of a well-formed snapshot: each reports a row that is below
    the threshold of a product with recent sales, and each such row is
    reported. *)
Lemma low_stock_alerts_justified db now company_id company :
  query_get Company.id (companies db) company_id = Some company →
  forallb (inventory_ok db now) (company_inventories db company) = true →
  ∃ alerts,
    low_stock_alerts db now company_id
      = Return (AlertsBody alerts (Z.of_nat (length alerts)), 200) ∧
    (∀ a, a ∈ alerts →
       ∃ inv product avg,
         inv ∈ company_inventories db company ∧ alert_of a inv ∧
         query_get Product.id (products db) (Inventory.product_id inv) = Some product ∧
         has_recent_sales db now product ∧
         Alert.threshold a = get_threshold_for_product product ∧
         Inventory.quantity inv < get_threshold_for_product product ∧
         avg_daily_sales (Product_sales db product) now SALES_AVG_DAYS = Return avg ∧
         days_until_stockout (Inventory.quantity inv) avg
           = Return (Alert.days_until_stockout a)) ∧
    (∀ inv product,
       inv ∈ company_inventories db company →
       query_get Product.id (products db) (Inventory.product_id inv) = Some product →
       has_recent_sales db now product →
       Inventory.quantity inv < get_threshold_for_product product →
       ∃ a, a ∈ alerts ∧ alert_of a inv).
Proof.
  intros Hcompany Hok.
  destruct (low_stock_alerts_answers db now company_id company Hcompany Hok) as [alerts Hview].
  exists alerts. split; [done|].
  destruct (low_stock_alerts_Return db now company_id company Hcompany _ _ _ Hview)
    as (_ & _ & Hmem).
  split.
  - intros a (inv & Hin & product & avg & Hget & Hrecent & Havg & Ha)%Hmem.
    apply inventory_alert_Some in Ha as (Hlt & days & w & Hdays & Hw & ->).
    destruct (company_inventories_warehouse db company inv Hin) as (w' & Hw' & Hid).
    rewrite Hw in Hw'. injection Hw' as <-.
    apply query_get_Some in Hget as Hpk. destruct Hpk as [_ Hpk].
    exists inv, product, avg. unfold alert_of. simpl.
    rewrite has_recent_sales_iff. auto 10.
  - intros inv product Hin Hget Hrecent Hlt.
    assert (Hrow : inventory_ok db now inv = true).
    { eapply forallb_forall in Hok; [done|]. by apply list_elem_of_In. }
    destruct (inventory_ok_spec _ _ _ Hrow) as (Hq & product' & avg & Hget' & Havg).
    rewrite Hget in Hget'. injection Hget' as <-.
    destruct (days_until_stockout_returns (Product_sales db product) now SALES_AVG_DAYS
                (Inventory.quantity inv) avg Hq ltac:(reflexivity) Havg) as [days Hdays].
    destruct (company_inventories_warehouse db company inv Hin) as (w & Hw & Hid).
    eexists. split.
    + apply Hmem. exists inv. split; [done|]. exists product, avg.
      split; [done|]. split; [by apply has_recent_sales_iff|]. split; [done|].
      apply inventory_alert_Some. split; [done|]. by exists days, w.
    + apply query_get_Some in Hget as [_ Hpk]. unfold alert_of. simpl. auto.
Qed.

(** ** Which rows are reported *)

(** C1: on a well-formed snapshot the view answers, and an inventory row of
    the company is reported by an alert if and only if its product has a
    sale dated at or after [now - SALES_LOOKBACK_DAYS] and its quantity is
    below the threshold of the product; every alert reports such a row, with
    a stock below the threshold. *)
Theorem alert_iff_recent_sales_and_low_stock db now company_id company :
  query_get Company.id (companies db) company_id = Some company →
  forallb (inventory_ok db now) (company_inventories db company) = true →
  ∃ alerts,
    low_stock_alerts db now company_id
      = Return (AlertsBody alerts (Z.of_nat (length alerts)), 200) ∧
    (∀ inv, inv ∈ company_inventories db company →
       (∃ a, a ∈ alerts ∧ alert_of a inv) ↔
       (∃ product,
          query_get Product.id (products db) (Inventory.product_id inv) = Some product ∧
          has_recent_sales db now product ∧
          Inventory.quantity inv < get_threshold_for_product product)) ∧
    (∀ a, a ∈ alerts →
       Alert.current_stock a < Alert.threshold a ∧
       ∃ inv product,
         inv ∈ company_inventories db company ∧ alert_of a inv ∧
         query_get Product.id (products db) (Inventory.product_id inv) = Some product ∧
         has_recent_sales db now product ∧
         Inventory.quantity inv < get_threshold_for_product product).
Proof.
  intros Hcompany Hok.
  destruct (low_stock_alerts_justified db now company_id company Hcompany Hok)
    as (alerts & Hview & Hsound & Hcomplete).
  exists alerts. split; [done|]. split.
  - intros inv Hin. split.
    + intros (a & Ha & Hpid & Hwid & Hstock).
      destruct (Hsound a Ha)
        as (inv' & product & avg & _ & (Hpid' & _ & Hstock') & Hget & Hrecent & _ & Hlt & _).
      exists product. rewrite <- Hpid, Hpid'. split; [done|]. split; [done|].
      by rewrite <- Hstock, Hstock'.
    + intros (product & Hget & Hrecent & Hlt). eauto.
  - intros a Ha.
    destruct (Hsound a Ha)
      as (inv & product & avg & Hin & Hof & Hget & Hrecent & Hthr & Hlt & _).
    split.
    + destruct Hof as (_ & _ & ->). by rewrite Hthr.
    + exists inv, product. auto.
Qed.

(** The seeded sample data: three of the four rows are reported. *)
Lemma alert_iff_recent_sales_and_low_stock_witness :
  ∃ alerts,
    low_stock_alerts (seed_sample_data sample_now) sample_now 1
      = Return (AlertsBody alerts (Z.of_nat (length alerts)), 200) ∧
    (∀ inv, inv ∈ company_inventories (seed_sample_data sample_now) (Company.mk 1 "Acme Corp") →
       (∃ a, a ∈ alerts ∧ alert_of a inv) ↔
       (∃ product,
          query_get Product.id (products (seed_sample_data sample_now))
            (Inventory.product_id inv) = Some product ∧
          has_recent_sales (seed_sample_data sample_now) sample_now product ∧
          Inventory.quantity inv < get_threshold_for_product product)) ∧
    (∀ a, a ∈ alerts →
       Alert.current_stock a < Alert.threshold a ∧
       ∃ inv product,
         inv ∈ company_inventories (seed_sample_data sample_now) (Company.mk 1 "Acme Corp") ∧
         alert_of a inv ∧
         query_get Product.id (products (seed_sample_data sample_now))
           (Inventory.product_id inv) = Some product ∧
         has_recent_sales (seed_sample_data sample_now) sample_now product ∧
         Inventory.quantity inv < get_threshold_for_product product).
Proof.
  apply (alert_iff_recent_sales_and_low_stock (seed_sample_data sample_now) sample_now 1
           (Company.mk 1 "Acme Corp")).
  - reflexivity.
  - vm_compute. reflexivity.
Defined.

Example seed_sample_data_alerts :
  low_stock_alerts (seed_sample_data sample_now) sample_now 1 =
    Return (AlertsBody
      [Alert.mk 1 "Widget A" "WID-001" 1 "Main Warehouse" 5 20 (Some 15)
         (Some (SupplierObj.mk 1 "Supplier Corp" (Some "orders@supplier.com")));
       Alert.mk 1 "Widget A" "WID-001" 2 "Overflow Warehouse" 0 20 (Some 0)
         (Some (SupplierObj.mk 1 "Supplier Corp" (Some "orders@supplier.com")));
       Alert.mk 2 "Gizmo B" "GIZ-002" 2 "Overflow Warehouse" 10 50 (Some 5)
         (Some (SupplierObj.mk 2 "Another Supplies" (Some "hello@another.com")))]
      3, 200).
Proof. vm_compute. reflexivity. Qed.

(** C7: when every sale of a product is older than the averaging window, one
    of them is within the lookback window, and a row of the product is below
    its threshold, the view reports the row with [days_until_stockout]
    [None]; so does every alert of that product. *)
Theorem stale_average_gives_null_estimate db now company_id company inv product :
  query_get Company.id (companies db) company_id = Some company →
  forallb (inventory_ok db now) (company_inventories db company) = true →
  inv ∈ company_inventories db company →
  query_get Product.id (products db) (Inventory.product_id inv) = Some product →
  (∀ s, s ∈ Product_sales db product → Sale.created_at s < now - timedelta SALES_AVG_DAYS) →
  has_recent_sales db now product →
  Inventory.quantity inv < get_threshold_for_product product →
  ∃ alerts,
    low_stock_alerts db now company_id
      = Return (AlertsBody alerts (Z.of_nat (length alerts)), 200) ∧
    (∃ a, a ∈ alerts ∧ alert_of a inv ∧ Alert.days_until_stockout a = None) ∧
    (∀ a, a ∈ alerts → Alert.product_id a = Inventory.product_id inv →
          Alert.days_until_stockout a = None).
Proof.
  intros Hcompany Hok Hin Hget Hstale Hrecent Hlt.
  destruct (low_stock_alerts_justified db now company_id company Hcompany Hok)
    as (alerts & Hview & Hsound & Hcomplete).
  exists alerts. split; [done|].
  assert (Hnull : ∀ a, a ∈ alerts → Alert.product_id a = Inventory.product_id inv →
                       Alert.days_until_stockout a = None).
  { intros a Ha Hpid.
    destruct (Hsound a Ha)
      as (inv' & product' & avg & _ & (Hpid' & _) & Hget' & _ & _ & _ & Havg & Hdays).
    rewrite <- Hpid', Hpid, Hget in Hget'. injection Hget' as <-.
    rewrite avg_daily_sales_stale in Havg by done. injection Havg as <-.
    by injection Hdays. }
  split; [|done].
  destruct (Hcomplete inv product Hin Hget Hrecent Hlt) as (a & Ha & Hof).
  exists a. split; [done|]. split; [done|]. apply Hnull; [done|]. by destruct Hof.
Qed.

(** A stock of 3 units of a slow-moving product last sold 60 days ago. *)
Lemma stale_average_gives_null_estimate_witness :
  let db := one_product_data sample_now (Some "slow-moving") 3 10 60 in
  let inv := Inventory.mk 1 1 1 3 in
  ∃ alerts,
    low_stock_alerts db sample_now 1
      = Return (AlertsBody alerts (Z.of_nat (length alerts)), 200) ∧
    (∃ a, a ∈ alerts ∧ alert_of a inv ∧ Alert.days_until_stockout a = None) ∧
    (∀ a, a ∈ alerts → Alert.product_id a = Inventory.product_id inv →
          Alert.days_until_stockout a = None).
Proof.
  intros db inv.
  apply (stale_average_gives_null_estimate db sample_now 1 (Company.mk 1 "Acme Corp") inv
           (Product.mk 1 "Widget A" "WID-001" (Some "slow-moving") None)).
  - reflexivity.
  - vm_compute. reflexivity.
  - left.
  - reflexivity.
  - intros s Hs. apply list_elem_of_singleton in Hs as ->. reflexivity.
  - exists (Sale.mk 1 1 10 (sample_now - timedelta 60)). split; [left|]. by vm_compute.
  - reflexivity.
Defined.

Example scenario_C :
  low_stock_alerts (one_product_data sample_now (Some "slow-moving") 3 10 60) sample_now 1 =
    Return (AlertsBody [Alert.mk 1 "Widget A" "WID-001" 1 "W1" 3 5 None None] 1, 200).
Proof. vm_compute. reflexivity. Qed.

(** Scenario B: the only sale is 200 days old; no alert, even at stock 0. *)
Example scenario_B :
  low_stock_alerts (one_product_data sample_now (Some "normal") 0 100 200) sample_now 1 =
    Return (AlertsBody [] 0, 200).
Proof. vm_compute. reflexivity. Qed.

(** ** Unknown companies *)




(** ** Scenario A *)

(** C8: a company whose only inventory row holds 5 units of a product of
    type "normal", whose only sale is of 10 units five days before [now]:
    exactly one alert, for the warehouse of the row, with threshold 20,
    current stock 5 and 15 days until stockout. *)
Theorem scenario_A db now company_id company inv product sale :
  query_get Company.id (companies db) company_id = Some company →
  company_inventories db company = [inv] →
  Inventory.quantity inv = 5 →
  query_get Product.id (products db) (Inventory.product_id inv) = Some product →
  Product.product_type product = Some "normal" →
  Product_sales db product = [sale] →
  Sale.quantity sale = 10 →
  Sale.created_at sale = now - timedelta 5 →
  ∃ a,
    low_stock_alerts db now company_id = Return (AlertsBody [a] 1, 200) ∧
    Alert.product_id a = Product.id product ∧
    Alert.warehouse_id a = Inventory.warehouse_id inv ∧
    Alert.threshold a = 20 ∧
    Alert.current_stock a = 5 ∧
    Alert.days_until_stockout a = Some 15.
Proof.
  intros Hcompany Hrows Hstock Hget Htype Hsales Hsold Hdate.
  destruct (company_inventories_warehouse db company inv) as (w & Hw & Hid);
    [rewrite Hrows; left|].
  assert (Hthr : get_threshold_for_product product = 20).
  { unfold get_threshold_for_product. by rewrite Htype. }
  assert (Hrecent : get_recent_sales db product (now - timedelta SALES_LOOKBACK_DAYS) = [sale]).
  { unfold get_recent_sales. rewrite Hsales, filter_cons_True, filter_nil; [done|].
    rewrite Hdate. unfold timedelta, SALES_LOOKBACK_DAYS. lia. }
  assert (Havg : avg_daily_sales (Product_sales db product) now SALES_AVG_DAYS
                 = Return (Float (S754_finite false 6004799503160661 (-54)))).
  { unfold avg_daily_sales. rewrite Hsales, filter_cons_True, filter_nil.
    - unfold total_sold_in_window. simpl. rewrite Hsold. reflexivity.
    - rewrite Hdate. unfold timedelta, SALES_AVG_DAYS. lia. }
  rewrite (low_stock_alerts_found db now company_id company Hcompany), Hrows.
  simpl. rewrite Hget, Hrecent, Havg. simpl.
  unfold inventory_alert. rewrite Hthr, Hstock, Hw. simpl.
  eexists. split; [reflexivity|]. simpl. auto.
Qed.

Lemma scenario_A_witness :
  ∃ a,
    low_stock_alerts (one_product_data sample_now (Some "normal") 5 10 5) sample_now 1
      = Return (AlertsBody [a] 1, 200) ∧
    Alert.product_id a = 1 ∧
    Alert.warehouse_id a = 1 ∧
    Alert.threshold a = 20 ∧
    Alert.current_stock a = 5 ∧
    Alert.days_until_stockout a = Some 15.
Proof.
  apply (scenario_A (one_product_data sample_now (Some "normal") 5 10 5) sample_now 1
           (Company.mk 1 "Acme Corp") (Inventory.mk 1 1 1 5)
           (Product.mk 1 "Widget A" "WID-001" (Some "normal") None)
           (Sale.mk 1 1 10 (sample_now - timedelta 5))); reflexivity.
Defined.

(** ** Companies without inventory *)

(** C9: a company that has no warehouse, or no inventory row in its
    warehouses, gets the empty list of alerts and a total of 0, with status
    200; and whenever the view answers with alerts, the total is their
    number. *)
Theorem no_inventory_no_alerts db now company_id :
  (∀ company,
     query_get Company.id (companies db) company_id = Some company →
     Company_warehouses db company = [] ∨ company_inventories db company = [] →
     low_stock_alerts db now company_id = Return (AlertsBody [] 0, 200)) ∧
  (∀ alerts total status,
     low_stock_alerts db now company_id = Return (AlertsBody alerts total, status) →
     total = Z.of_nat (length alerts)).
Proof.
  split.
  - intros company Hcompany Hempty.
    assert (Hrows : company_inventories db company = []).
    { destruct Hempty as [Hw|?]; [|done]. unfold company_inventories. rewrite Hw. simpl.
      induction (inventories db) as [|inv l IH]; [done|].
      rewrite filter_cons_False; [done|]. apply not_elem_of_nil. }
    by rewrite (low_stock_alerts_found db now company_id company Hcompany), Hrows.
  - intros alerts total status Hview.
    destruct (query_get Company.id (companies db) company_id) as [company|] eqn:Hcompany.
    + by destruct (low_stock_alerts_Return db now company_id company Hcompany _ _ _ Hview).
    + unfold low_stock_alerts, Company_query_get in Hview. rewrite Hcompany in Hview.
      by destruct (decide (- 2 ^ 63 ≤ company_id < 2 ^ 63)).
Qed.

Example company_without_warehouse :
  low_stock_alerts
    {| companies := [Company.mk 7 "Empty Ltd"]; warehouses := []; suppliers := [];
       products := []; inventories := [Inventory.mk 1 1 1 0]; sales := [] |}
    sample_now 7
  = Return (AlertsBody [] 0, 200).
Proof. reflexivity. Qed.

(** ** Future-dated sales *)

(** C10: a sale dated after [now] passes both filters, which only bound the
    date from below: it is among the recent sales and among the sales
    averaged; when it is the only sale of a product, the product passes the
    recent-activity gate and the total sold in the window is the quantity of
    that sale. *)
Theorem future_sales_are_counted db now product s :
  s ∈ Product_sales db product →
  now < Sale.created_at s →
  let recent_sales := get_recent_sales db product (now - timedelta SALES_LOOKBACK_DAYS) in
  let sales_for_avg :=
    filter (λ s, now - timedelta SALES_AVG_DAYS ≤ Sale.created_at s) (Product_sales db product) in
  s ∈ recent_sales ∧ s ∈ sales_for_avg ∧ has_recent_sales db now product ∧
  (Product_sales db product = [s] →
   recent_sales = [s] ∧ sales_for_avg = [s] ∧
   total_sold_in_window sales_for_avg = Sale.quantity s ∧
   avg_daily_sales (Product_sales db product) now SALES_AVG_DAYS
     = Float <$> int_truediv (Sale.quantity s) SALES_AVG_DAYS).
Proof.
  intros Hin Hfuture recent_sales sales_for_avg.
  assert (H90 : now - timedelta SALES_LOOKBACK_DAYS ≤ Sale.created_at s)
    by (unfold timedelta, SALES_LOOKBACK_DAYS; lia).
  assert (H30 : now - timedelta SALES_AVG_DAYS ≤ Sale.created_at s)
    by (unfold timedelta, SALES_AVG_DAYS; lia).
  split; [by apply list_elem_of_filter|]. split; [by apply list_elem_of_filter|].
  split; [by exists s|].
  intros Hsales. unfold recent_sales, sales_for_avg, get_recent_sales, avg_daily_sales.
  rewrite Hsales, !filter_cons_True, !filter_nil by done.
  unfold total_sold_in_window. simpl. rewrite Z.add_0_r. done.
Qed.

(** A sale dated one day after [now] is the only sale: the product is
    reported, with an estimate from the rate 10/30. *)
Lemma future_sales_are_counted_witness :
  let db := one_product_data sample_now (Some "normal") 5 10 (-1) in
  let product := Product.mk 1 "Widget A" "WID-001" (Some "normal") None in
  let s := Sale.mk 1 1 10 (sample_now - timedelta (-1)) in
  (s ∈ get_recent_sales db product (sample_now - timedelta SALES_LOOKBACK_DAYS) ∧
   s ∈ filter (λ s, sample_now - timedelta SALES_AVG_DAYS ≤ Sale.created_at s)
         (Product_sales db product) ∧
   has_recent_sales db sample_now product ∧
   (Product_sales db product = [s] →
    get_recent_sales db product (sample_now - timedelta SALES_LOOKBACK_DAYS) = [s] ∧
    filter (λ s, sample_now - timedelta SALES_AVG_DAYS ≤ Sale.created_at s)
      (Product_sales db product) = [s] ∧
    total_sold_in_window
      (filter (λ s, sample_now - timedelta SALES_AVG_DAYS ≤ Sale.created_at s)
         (Product_sales db product)) = Sale.quantity s ∧
    avg_daily_sales (Product_sales db product) sample_now SALES_AVG_DAYS
      = Float <$> int_truediv (Sale.quantity s) SALES_AVG_DAYS)) ∧
  sample_now < Sale.created_at s ∧
  low_stock_alerts db sample_now 1 =
    Return (AlertsBody [Alert.mk 1 "Widget A" "WID-001" 1 "W1" 5 20 (Some 15) None] 1, 200).
Proof.
  intros db product s. split; [|split; [reflexivity|vm_compute; reflexivity]].
  apply (future_sales_are_counted db sample_now product s).
  - left.
  - reflexivity.
Defined.

(** * Further properties *)

(** ** The dictionary of inventory rows *)

Lemma dict_get_setdefault_append key inv prod_inv_map k :
  dict_get k (setdefault_append key inv prod_inv_map) =
    if decide (k = key) then Some (default [] (dict_get key prod_inv_map) ++ [inv])
    else dict_get k prod_inv_map.
Proof.
  induction prod_inv_map as [|[k' l'] rest IH]; simpl.
  - repeat case_decide; congruence.
  - destruct (decide (k' = key)) as [->|Hne]; simpl.
    + repeat case_decide; congruence.
    + rewrite IH. repeat case_decide; congruence.
Qed.

Lemma keys_setdefault_append key inv prod_inv_map :
  (setdefault_append key inv prod_inv_map).*1 =
    if decide (key ∈ prod_inv_map.*1) then prod_inv_map.*1 else prod_inv_map.*1 ++ [key].
Proof.
  induction prod_inv_map as [|[k' l'] rest IH].
  - destruct (decide (key ∈ ([] : list (Z * list Inventory.t)).*1)) as [Hin|_]; [|done].
    by apply elem_of_nil in Hin.
  - cbn [setdefault_append].
    destruct (decide (key ∈ ((k', l') :: rest).*1)) as [Hin|Hin];
      destruct (decide (k' = key)) as [->|Hne]; cbn [fmap list_fmap fst] in *.
    + done.
    + rewrite IH. apply elem_of_cons in Hin as [?|Hin]; [done|].
      by rewrite decide_True.
    + exfalso. apply Hin. left.
    + rewrite IH. rewrite decide_False; [done|]. intros ?. apply Hin. by right.
Qed.

Lemma NoDup_keys_setdefault_append key inv prod_inv_map :
  NoDup prod_inv_map.*1 → NoDup (setdefault_append key inv prod_inv_map).*1.
Proof.
  intros Hnd. rewrite keys_setdefault_append. case_decide; [done|].
  apply NoDup_app. split; [done|]. split; [|apply NoDup_singleton].
  intros x Hx ->%list_elem_of_singleton. done.
Qed.

Lemma NoDup_keys_group_inventories rows : ∀ prod_inv_map,
  NoDup prod_inv_map.*1 → NoDup (group_inventories rows prod_inv_map).*1.
Proof.
  induction rows as [|inv rows IH]; intros m Hm; simpl; [done|].
  by apply IH, NoDup_keys_setdefault_append.
Qed.

Lemma dict_get_group_inventories rows k : ∀ prod_inv_map,
  dict_get k (group_inventories rows prod_inv_map) =
    match filter (λ inv, Inventory.product_id inv = k) rows with
    | [] => dict_get k prod_inv_map
    | l => Some (default [] (dict_get k prod_inv_map) ++ l)
    end.
Proof.
  induction rows as [|inv rows IH]; intros m; simpl; [done|].
  rewrite IH, dict_get_setdefault_append.
  destruct (decide (Inventory.product_id inv = k)) as [<-|Hne].
  - rewrite filter_cons_True by done. rewrite decide_True by done. simpl.
    destruct (filter _ rows); by rewrite <- ?app_assoc.
  - rewrite filter_cons_False by done. rewrite decide_False by done. done.
Qed.

Lemma dict_get_None k prod_inv_map :
  k ∉ prod_inv_map.*1 → dict_get k prod_inv_map = None.
Proof.
  induction prod_inv_map as [|[k' l'] rest IH]; simpl; [done|].
  intros Hk. rewrite decide_False by (intros ->; apply Hk; left).
  apply IH. intros ?. apply Hk. by right.
Qed.

Lemma elem_of_dict prod_inv_map k l :
  NoDup prod_inv_map.*1 →
  (k, l) ∈ prod_inv_map ↔ dict_get k prod_inv_map = Some l.
Proof.
  induction prod_inv_map as [|[k' l'] rest IH]; simpl.
  - intros _. split; [by intros ?%elem_of_nil|done].
  - intros [Hk' Hnd]%NoDup_cons. rewrite elem_of_cons, IH by done.
    destruct (decide (k' = k)) as [->|Hne].
    + rewrite dict_get_None by done. split.
      * intros [[= ->]|?]; done.
      * intros [= ->]. by left.
    + split; [intros [[= -> ->]|?]; done|auto].
Qed.

(** X1: the dictionary built from the inventory rows has pairwise distinct
    keys, and files under a product exactly the rows of that product, in
    row order; no key has an empty list. *)
Theorem group_inventories_partition (rows : list Inventory.t) :
  NoDup (group_inventories rows []).*1 ∧
  ∀ k l, (k, l) ∈ group_inventories rows [] ↔
         l ≠ [] ∧ l = filter (λ inv, Inventory.product_id inv = k) rows.
Proof.
  assert (Hnd : NoDup (group_inventories rows []).*1)
    by (apply NoDup_keys_group_inventories; constructor).
  split; [done|]. intros k l.
  rewrite elem_of_dict, dict_get_group_inventories by done. simpl.
  destruct (filter _ rows) as [|inv l'].
  - split; [done|]. by intros [? ->].
  - split; [by intros [= <-]|]. by intros [_ ->].
Qed.

(** ** The alerts, row by row *)

Lemma inventory_loop_out db product threshold avg inv_list : ∀ alerts out,
  inventory_loop db product threshold avg inv_list alerts = Return out →
  ∃ opts,
    Forall2 (λ inv o, inventory_alert db product threshold avg inv = Return o) inv_list opts ∧
    out = alerts ++ omap id opts.
Proof.
  induction inv_list as [|inv rest IH]; intros alerts out; simpl.
  - intros [= <-]. exists []. split; [constructor|]. by rewrite app_nil_r.
  - destruct (inventory_alert db product threshold avg inv) as [o|e] eqn:Hinv; [|done].
    simpl. intros (opts & Hall & ->)%IH. exists (o :: opts). split; [by constructor|].
    rewrite <- app_assoc. by destruct o.
Qed.

Lemma product_loop_out db now items : ∀ alerts out,
  Forall (λ item, Forall (λ inv, Inventory.product_id inv = item.1) item.2) items →
  product_loop db now items alerts = Return out →
  ∃ opts,
    Forall2 (row_result db now) (concat items.*2) opts ∧
    out = alerts ++ omap id opts.
Proof.
  induction items as [|[pid inv_list] rest IH]; intros alerts out Hkeys; simpl.
  - intros [= <-]. exists []. split; [constructor|]. by rewrite app_nil_r.
  - apply Forall_cons in Hkeys as [Hpid Hkeys]. simpl in Hpid.
    destruct (query_get Product.id (products db) pid) as [product|] eqn:Hget; [|done].
    destruct (get_recent_sales db product _) as [|s0 recent] eqn:Hrecent.
    + intros (opts & Hall & ->)%IH; [|done].
      exists (replicate (length inv_list) None ++ opts). split.
      * apply Forall2_app; [|done]. clear -Hpid Hget Hrecent.
        induction Hpid as [|inv l Hinv _ IHl]; simpl; constructor; [|done].
        exists product. rewrite Hinv, Hrecent. done.
      * rewrite omap_app. f_equal.
        clear. induction inv_list; simpl; [done|]. done.
    + destruct (avg_daily_sales _ now SALES_AVG_DAYS) as [avg|e] eqn:Havg; [|done]. simpl.
      destruct (inventory_loop db product _ avg inv_list alerts) as [alerts'|e] eqn:Hloop;
        [|done].
      simpl. intros (opts & Hall & ->)%IH; [|done].
      apply inventory_loop_out in Hloop as (opts' & Hall' & ->).
      exists (opts' ++ opts). split.
      * apply Forall2_app; [|done]. clear -Hpid Hget Hrecent Havg Hall'.
        induction Hall' as [|inv o l os Ho _ IHl]; [constructor|].
        apply Forall_cons in Hpid as [Hinv Hpid]. constructor; [|by apply IHl].
        exists product. rewrite Hinv, Hrecent. split; [done|]. by exists avg.
      * by rewrite omap_app, app_assoc.
Qed.

Lemma row_result_Some db now inv a :
  row_result db now inv (Some a) → reportable db now inv = true ∧ alert_of a inv.
Proof.
  intros (product & Hget & Hres). unfold reportable. rewrite Hget.
  destruct (get_recent_sales db product _) as [|s0 recent] eqn:Hrecent; [done|].
  destruct Hres as (avg & Havg & (Hlt & days & w & _ & Hw & ->)%inventory_alert_Some).
  split.
  - rewrite bool_decide_eq_true_2 by done. by rewrite bool_decide_eq_true_2.
  - apply query_get_Some in Hget as [_ Hpk]. apply query_get_Some in Hw as [_ Hwid].
    done.
Qed.

Lemma row_result_None db now inv :
  row_result db now inv None → reportable db now inv = false.
Proof.
  intros (product & Hget & Hres). unfold reportable. rewrite Hget.
  destruct (get_recent_sales db product _) as [|s0 recent] eqn:Hrecent.
  - by rewrite bool_decide_eq_false_2 by (by intros ?).
  - destruct Hres as (avg & Havg & Hinv).
    rewrite (bool_decide_eq_false_2 (Inventory.quantity inv < _)); [by rewrite andb_false_r|].
    intros Hlt. unfold inventory_alert in Hinv. rewrite decide_True in Hinv by done.
    destruct (days_until_stockout _ avg); simpl in Hinv; [|done].
    by destruct (Inventory_warehouse db inv).
Qed.

(** The alerts match, one for one and in order, the reportable rows. *)
Lemma row_results_alerts db now rows opts :
  Forall2 (row_result db now) rows opts →
  Forall2 alert_of (omap id opts) (filter (λ inv, reportable db now inv = true) rows).
Proof.
  induction 1 as [|inv o rows opts Hres _ IH]; [constructor|].
  destruct o as [a|]; simpl.
  - apply row_result_Some in Hres as [Hrep Hof].
    rewrite filter_cons_True by done. by constructor.
  - apply row_result_None in Hres. rewrite filter_cons_False by congruence. done.
Qed.

Lemma group_inventories_keyed rows :
  Forall (λ item, Forall (λ inv, Inventory.product_id inv = item.1) item.2)
    (group_inventories rows []).
Proof.
  apply Forall_forall. intros [k l] Hitem. apply Forall_forall. intros inv Hinv.
  apply (filed_group_inventories_nil rows k inv). by exists l.
Qed.

Lemma concat_setdefault_append key inv prod_inv_map :
  concat (setdefault_append key inv prod_inv_map).*2 ≡ₚ concat prod_inv_map.*2 ++ [inv].
Proof.
  induction prod_inv_map as [|[k' l'] rest IH]; simpl; [done|].
  destruct (decide (k' = key)); simpl.
  - rewrite <- !app_assoc. f_equiv. apply Permutation_app_comm.
  - by rewrite IH, app_assoc.
Qed.

Lemma concat_group_inventories rows : ∀ prod_inv_map,
  concat (group_inventories rows prod_inv_map).*2 ≡ₚ concat prod_inv_map.*2 ++ rows.
Proof.
  induction rows as [|inv rows IH]; intros m; simpl; [by rewrite app_nil_r|].
  rewrite IH, concat_setdefault_append, <- app_assoc. done.
Qed.

(** The rows in the order in which the view visits them. *)
Lemma low_stock_alerts_in_order db now company_id company alerts total status :
  query_get Company.id (companies db) company_id = Some company →
  low_stock_alerts db now company_id = Return (AlertsBody alerts total, status) →
  Forall2 alert_of alerts
    (filter (λ inv, reportable db now inv = true)
       (concat (group_inventories (company_inventories db company) []).*2)).
Proof.
  intros Hcompany. rewrite (low_stock_alerts_found db now company_id company Hcompany).
  destruct (product_loop db now _ []) as [out|e] eqn:Hloop; [|done].
  intros [= -> _ _].
  apply product_loop_out in Hloop as (opts & Hall & ->); [|apply group_inventories_keyed].
  by apply row_results_alerts.
Qed.

(** X2: when the view answers with alerts, their number, and the total it
    returns, is the number of rows of the company that are reportable: one
    alert for each such row, also when several rows share a product and a
    warehouse. *)
Theorem total_alerts_counts_reportable_rows db now company_id company alerts total status :
  query_get Company.id (companies db) company_id = Some company →
  low_stock_alerts db now company_id = Return (AlertsBody alerts total, status) →
  length alerts
    = length (filter (λ inv, reportable db now inv = true) (company_inventories db company)) ∧
  total = Z.of_nat
      (length (filter (λ inv, reportable db now inv = true) (company_inventories db company))).
Proof.
  intros Hcompany Hview.
  pose proof (low_stock_alerts_in_order _ _ _ _ _ _ _ Hcompany Hview) as Hall.
  apply Forall2_length in Hall.
  destruct (low_stock_alerts_Return db now company_id company Hcompany _ _ _ Hview)
    as (-> & _ & _).
  assert (Hlen : length alerts
    = length (filter (λ inv, reportable db now inv = true) (company_inventories db company))).
  { rewrite Hall. apply Permutation_length, filter_Permutation.
    by rewrite concat_group_inventories. }
  by rewrite Hlen.
Qed.

Lemma total_alerts_counts_reportable_rows_witness :
  length
    [Alert.mk 1 "Widget A" "WID-001" 1 "Main Warehouse" 5 20 (Some 15)
       (Some (SupplierObj.mk 1 "Supplier Corp" (Some "orders@supplier.com")));
     Alert.mk 1 "Widget A" "WID-001" 2 "Overflow Warehouse" 0 20 (Some 0)
       (Some (SupplierObj.mk 1 "Supplier Corp" (Some "orders@supplier.com")));
     Alert.mk 2 "Gizmo B" "GIZ-002" 2 "Overflow Warehouse" 10 50 (Some 5)
       (Some (SupplierObj.mk 2 "Another Supplies" (Some "hello@another.com")))]
    = length (filter (λ inv, reportable (seed_sample_data sample_now) sample_now inv = true)
                (company_inventories (seed_sample_data sample_now) (Company.mk 1 "Acme Corp"))) ∧
  3 = Z.of_nat
      (length (filter (λ inv, reportable (seed_sample_data sample_now) sample_now inv = true)
                 (company_inventories (seed_sample_data sample_now) (Company.mk 1 "Acme Corp")))).
Proof.
  apply (total_alerts_counts_reportable_rows (seed_sample_data sample_now) sample_now 1
           (Company.mk 1 "Acme Corp") _ 3 200).
  - reflexivity.
  - vm_compute. reflexivity.
Defined.

Lemma Forall2_alert_of_filter k alerts rows :
  Forall2 alert_of alerts rows →
  Forall2 alert_of (filter (λ a, Alert.product_id a = k) alerts)
    (filter (λ inv, Inventory.product_id inv = k) rows).
Proof.
  induction 1 as [|a inv alerts rows Hof _ IH]; [constructor|].
  destruct (decide (Alert.product_id a = k)) as [Hk|Hk].
  - rewrite !filter_cons_True by (destruct Hof; congruence). by constructor.
  - rewrite !filter_cons_False by (destruct Hof; congruence). done.
Qed.

Lemma filter_comm {A} (P Q : A → Prop) `{∀ x, Decision (P x)} `{∀ x, Decision (Q x)}
    (l : list A) :
  filter P (filter Q l) = filter Q (filter P l).
Proof.
  induction l as [|x l IH]; [done|].
  destruct (decide (P x)) as [HP|HP], (decide (Q x)) as [HQ|HQ].
  - by rewrite (filter_cons_True Q), (filter_cons_True P), (filter_cons_True P),
      (filter_cons_True Q), IH.
  - by rewrite (filter_cons_False Q), (filter_cons_True P), (filter_cons_False Q), IH.
  - by rewrite (filter_cons_True Q), (filter_cons_False P), (filter_cons_False P), IH.
  - by rewrite (filter_cons_False Q), (filter_cons_False P), IH.
Qed.

Lemma filter_concat_keyed k items :
  NoDup items.*1 →
  Forall (λ item, Forall (λ inv, Inventory.product_id inv = item.1) item.2) items →
  filter (λ inv, Inventory.product_id inv = k) (concat items.*2) = default [] (dict_get k items).
Proof.
  induction items as [|[k' l'] rest IH]; [done|].
  rewrite fmap_cons. intros [Hk' Hnd]%NoDup_cons [Hl' Hrest]%Forall_cons.
  cbn [fst snd] in Hk', Hl'.
  change (concat ((k', l') :: rest).*2) with (l' ++ concat rest.*2).
  rewrite filter_app, IH by done. cbn [dict_get].
  destruct (decide (k' = k)) as [->|Hne]; cbn [default].
  - rewrite dict_get_None by done. cbn [default]. rewrite app_nil_r.
    clear -Hl'. induction Hl' as [|inv l Hinv _ IHl]; [done|].
    by rewrite filter_cons_True, IHl.
  - assert (filter (λ inv, Inventory.product_id inv = k) l' = []) as ->; [|done].
    clear -Hl' Hne. induction Hl' as [|inv l Hinv _ IHl]; [done|].
    by rewrite filter_cons_False by congruence.
Qed.

(** X3: when the view answers with alerts, the alerts of one product match,
    one for one and in row order, the reportable rows of that product among
    the inventory rows of the company. *)
Theorem alerts_of_product_in_row_order db now company_id company alerts total status k :
  query_get Company.id (companies db) company_id = Some company →
  low_stock_alerts db now company_id = Return (AlertsBody alerts total, status) →
  Forall2 alert_of
    (filter (λ a, Alert.product_id a = k) alerts)
    (filter (λ inv, reportable db now inv = true)
       (filter (λ inv, Inventory.product_id inv = k) (company_inventories db company))).
Proof.
  intros Hcompany Hview.
  pose proof (low_stock_alerts_in_order _ _ _ _ _ _ _ Hcompany Hview) as Hall.
  apply (Forall2_alert_of_filter k) in Hall.
  rewrite filter_comm, filter_concat_keyed in Hall;
    [|apply NoDup_keys_group_inventories; constructor|apply group_inventories_keyed].
  rewrite dict_get_group_inventories in Hall. simpl in Hall.
  by destruct (filter (λ inv, Inventory.product_id inv = k) (company_inventories db company)).
Qed.

Lemma alerts_of_product_in_row_order_witness :
  Forall2 alert_of
    (filter (λ a, Alert.product_id a = 1)
       [Alert.mk 1 "Widget A" "WID-001" 1 "Main Warehouse" 5 20 (Some 15)
          (Some (SupplierObj.mk 1 "Supplier Corp" (Some "orders@supplier.com")));
        Alert.mk 1 "Widget A" "WID-001" 2 "Overflow Warehouse" 0 20 (Some 0)
          (Some (SupplierObj.mk 1 "Supplier Corp" (Some "orders@supplier.com")));
        Alert.mk 2 "Gizmo B" "GIZ-002" 2 "Overflow Warehouse" 10 50 (Some 5)
          (Some (SupplierObj.mk 2 "Another Supplies" (Some "hello@another.com")))])
    (filter (λ inv, reportable (seed_sample_data sample_now) sample_now inv = true)
       (filter (λ inv, Inventory.product_id inv = 1)
          (company_inventories (seed_sample_data sample_now) (Company.mk 1 "Acme Corp")))).
Proof.
  apply (alerts_of_product_in_row_order (seed_sample_data sample_now) sample_now 1
           (Company.mk 1 "Acme Corp") _ 3 200 1).
  - reflexivity.
  - vm_compute. reflexivity.
Defined.

(** ** What an alert carries *)

Lemma query_get_None {A} (pk : A → Z) table key :
  query_get pk table key = None ↔ ∀ row, row ∈ table → pk row ≠ key.
Proof.
  split.
  - intros Hnone row Hin Hpk.
    destruct (query_get_is_Some pk table key row Hin Hpk) as [row' Hrow']. congruence.
  - intros Hall. destruct (query_get pk table key) as [row|] eqn:Hget; [|done].
    apply query_get_Some in Hget as [Hin Hpk]. by destruct (Hall row Hin).
Qed.

(** The alerts of an answer, with the row, the product and the warehouse each
    was built from. *)
Lemma low_stock_alerts_built db now company_id company alerts total status a :
  query_get Company.id (companies db) company_id = Some company →
  low_stock_alerts db now company_id = Return (AlertsBody alerts total, status) →
  a ∈ alerts →
  ∃ inv product avg days w,
    inv ∈ company_inventories db company ∧
    query_get Product.id (products db) (Inventory.product_id inv) = Some product ∧
    get_recent_sales db product (now - timedelta SALES_LOOKBACK_DAYS) ≠ [] ∧
    avg_daily_sales (Product_sales db product) now SALES_AVG_DAYS = Return avg ∧
    Inventory.quantity inv < get_threshold_for_product product ∧
    days_until_stockout (Inventory.quantity inv) avg = Return days ∧
    Inventory_warehouse db inv = Some w ∧
    a = Alert.mk (Product.id product) (Product.name product) (Product.sku product)
          (Warehouse.id w) (Warehouse.name w) (Inventory.quantity inv)
          (get_threshold_for_product product) days
          (supplier_obj (Product_supplier db product)).
Proof.
  intros Hcompany Hview Ha.
  destruct (low_stock_alerts_Return db now company_id company Hcompany _ _ _ Hview)
    as (_ & _ & Hmem).
  apply Hmem in Ha as (inv & Hin & product & avg & Hget & Hrecent & Havg & Hinv).
  apply inventory_alert_Some in Hinv as (Hlt & days & w & Hdays & Hw & ->).
  exists inv, product, avg, days, w. auto 10.
Qed.

(** X4: every alert of an answer is for a warehouse of the requested
    company, and carries the name of the warehouse row with that
    identifier. *)
Theorem alerts_only_for_company_warehouses db now company_id company alerts total status :
  query_get Company.id (companies db) company_id = Some company →
  low_stock_alerts db now company_id = Return (AlertsBody alerts total, status) →
  ∀ a, a ∈ alerts →
    (∃ w, w ∈ warehouses db ∧ Warehouse.company_id w = Company.id company ∧
          Warehouse.id w = Alert.warehouse_id a) ∧
    (∃ w, query_get Warehouse.id (warehouses db) (Alert.warehouse_id a) = Some w ∧
          Alert.warehouse_name a = Warehouse.name w).
Proof.
  intros Hcompany Hview a Ha.
  destruct (low_stock_alerts_built _ _ _ _ _ _ _ _ Hcompany Hview Ha)
    as (inv & product & avg & days & w & Hin & _ & _ & _ & _ & _ & Hw & ->).
  apply query_get_Some in Hw as Hid. destruct Hid as [_ Hid]. simpl. split.
  - unfold company_inventories in Hin. apply list_elem_of_filter in Hin as [Hwid _].
    apply list_elem_of_fmap in Hwid as (w0 & Hid0 & Hin0).
    apply list_elem_of_filter in Hin0 as [Hco Hin0].
    exists w0. split; [done|]. split; [done|]. congruence.
  - exists w. rewrite Hid. done.
Qed.

Lemma alerts_only_for_company_warehouses_witness :
  let db := one_product_data sample_now (Some "slow-moving") 3 10 60 in
  let a := Alert.mk 1 "Widget A" "WID-001" 1 "W1" 3 5 None None in
  (∃ w, w ∈ warehouses db ∧ Warehouse.company_id w = Company.id (Company.mk 1 "Acme Corp") ∧
        Warehouse.id w = Alert.warehouse_id a) ∧
  (∃ w, query_get Warehouse.id (warehouses db) (Alert.warehouse_id a) = Some w ∧
        Alert.warehouse_name a = Warehouse.name w).
Proof.
  apply (alerts_only_for_company_warehouses
           (one_product_data sample_now (Some "slow-moving") 3 10 60) sample_now 1
           (Company.mk 1 "Acme Corp")
           [Alert.mk 1 "Widget A" "WID-001" 1 "W1" 3 5 None None] 1 200).
  - reflexivity.
  - vm_compute. reflexivity.
  - left.
Defined.

(** X5: every alert of an answer carries the name, the SKU and the threshold
    of the product row with its product identifier, so that two alerts of one
    product agree on them and on the supplier. *)
Theorem alerts_carry_product_data db now company_id company alerts total status :
  query_get Company.id (companies db) company_id = Some company →
  low_stock_alerts db now company_id = Return (AlertsBody alerts total, status) →
  (∀ a, a ∈ alerts →
     ∃ product,
       query_get Product.id (products db) (Alert.product_id a) = Some product ∧
       Alert.product_name a = Product.name product ∧
       Alert.sku a = Product.sku product ∧
       Alert.threshold a = get_threshold_for_product product) ∧
  (∀ a b, a ∈ alerts → b ∈ alerts → Alert.product_id a = Alert.product_id b →
     Alert.product_name a = Alert.product_name b ∧ Alert.sku a = Alert.sku b ∧
     Alert.threshold a = Alert.threshold b ∧ Alert.supplier a = Alert.supplier b).
Proof.
  intros Hcompany Hview.
  assert (Hfrom : ∀ a, a ∈ alerts →
    ∃ product,
      query_get Product.id (products db) (Alert.product_id a) = Some product ∧
      Alert.product_name a = Product.name product ∧
      Alert.sku a = Product.sku product ∧
      Alert.threshold a = get_threshold_for_product product ∧
      Alert.supplier a = supplier_obj (Product_supplier db product)).
  { intros a Ha.
    destruct (low_stock_alerts_built _ _ _ _ _ _ _ _ Hcompany Hview Ha)
      as (inv & product & avg & days & w & _ & Hget & _ & _ & _ & _ & _ & ->).
    apply query_get_Some in Hget as Hpk. destruct Hpk as [_ Hpk].
    exists product. simpl. rewrite Hpk. auto. }
  split.
  - intros a Ha. destruct (Hfrom a Ha) as (product & ? & ? & ? & ? & _). by exists product.
  - intros a b Ha Hb Hab.
    destruct (Hfrom a Ha) as (pa & Hga & -> & -> & -> & ->).
    destruct (Hfrom b Hb) as (pb & Hgb & -> & -> & -> & ->).
    rewrite Hab, Hgb in Hga. by injection Hga as ->.
Qed.

Lemma alerts_carry_product_data_witness :
  let db := seed_sample_data sample_now in
  let alerts :=
    [Alert.mk 1 "Widget A" "WID-001" 1 "Main Warehouse" 5 20 (Some 15)
       (Some (SupplierObj.mk 1 "Supplier Corp" (Some "orders@supplier.com")));
     Alert.mk 1 "Widget A" "WID-001" 2 "Overflow Warehouse" 0 20 (Some 0)
       (Some (SupplierObj.mk 1 "Supplier Corp" (Some "orders@supplier.com")));
     Alert.mk 2 "Gizmo B" "GIZ-002" 2 "Overflow Warehouse" 10 50 (Some 5)
       (Some (SupplierObj.mk 2 "Another Supplies" (Some "hello@another.com")))] in
  (∀ a, a ∈ alerts →
     ∃ product,
       query_get Product.id (products db) (Alert.product_id a) = Some product ∧
       Alert.product_name a = Product.name product ∧
       Alert.sku a = Product.sku product ∧
       Alert.threshold a = get_threshold_for_product product) ∧
  (∀ a b, a ∈ alerts → b ∈ alerts → Alert.product_id a = Alert.product_id b →
     Alert.product_name a = Alert.product_name b ∧ Alert.sku a = Alert.sku b ∧
     Alert.threshold a = Alert.threshold b ∧ Alert.supplier a = Alert.supplier b).
Proof.
  apply (alerts_carry_product_data (seed_sample_data sample_now) sample_now 1
           (Company.mk 1 "Acme Corp") _ 3 200).
  - reflexivity.
  - vm_compute. reflexivity.
Defined.

(** X6: the supplier of an alert is [None] exactly when the product has no
    supplier reference or the reference matches no supplier row; otherwise it
    holds the identifier, the name and the contact address of a supplier row
    that the product refers to. *)
Theorem alert_supplier_when_available db now company_id company alerts total status :
  query_get Company.id (companies db) company_id = Some company →
  low_stock_alerts db now company_id = Return (AlertsBody alerts total, status) →
  ∀ a, a ∈ alerts →
    ∃ product,
      query_get Product.id (products db) (Alert.product_id a) = Some product ∧
      match Alert.supplier a with
      | None =>
          Product.supplier_id product = None ∨
          ∃ sid, Product.supplier_id product = Some sid ∧
                 ∀ s, s ∈ suppliers db → Supplier.id s ≠ sid
      | Some obj =>
          ∃ s, s ∈ suppliers db ∧ Product.supplier_id product = Some (Supplier.id s) ∧
               obj = SupplierObj.mk (Supplier.id s) (Supplier.name s) (Supplier.contact_email s)
      end.
Proof.
  intros Hcompany Hview a Ha.
  destruct (low_stock_alerts_built _ _ _ _ _ _ _ _ Hcompany Hview Ha)
    as (inv & product & avg & days & w & _ & Hget & _ & _ & _ & _ & _ & ->).
  apply query_get_Some in Hget as Hpk. destruct Hpk as [_ Hpk].
  exists product. simpl. rewrite Hpk. split; [done|].
  unfold Product_supplier.
  destruct (Product.supplier_id product) as [sid|]; simpl; [|by left].
  destruct (query_get Supplier.id (suppliers db) sid) as [s|] eqn:Hs; simpl.
  - apply query_get_Some in Hs as [Hin <-]. by exists s.
  - right. exists sid. split; [done|]. by apply query_get_None.
Qed.

Lemma alert_supplier_when_available_witness :
  let db := seed_sample_data sample_now in
  let a := Alert.mk 2 "Gizmo B" "GIZ-002" 2 "Overflow Warehouse" 10 50 (Some 5)
             (Some (SupplierObj.mk 2 "Another Supplies" (Some "hello@another.com"))) in
  ∃ product,
    query_get Product.id (products db) (Alert.product_id a) = Some product ∧
    match Alert.supplier a with
    | None =>
        Product.supplier_id product = None ∨
        ∃ sid, Product.supplier_id product = Some sid ∧
               ∀ s, s ∈ suppliers db → Supplier.id s ≠ sid
    | Some obj =>
        ∃ s, s ∈ suppliers db ∧ Product.supplier_id product = Some (Supplier.id s) ∧
             obj = SupplierObj.mk (Supplier.id s) (Supplier.name s) (Supplier.contact_email s)
    end.
Proof.
  apply (alert_supplier_when_available (seed_sample_data sample_now) sample_now 1
           (Company.mk 1 "Acme Corp")
           [Alert.mk 1 "Widget A" "WID-001" 1 "Main Warehouse" 5 20 (Some 15)
              (Some (SupplierObj.mk 1 "Supplier Corp" (Some "orders@supplier.com")));
            Alert.mk 1 "Widget A" "WID-001" 2 "Overflow Warehouse" 0 20 (Some 0)
              (Some (SupplierObj.mk 1 "Supplier Corp" (Some "orders@supplier.com")));
            Alert.mk 2 "Gizmo B" "GIZ-002" 2 "Overflow Warehouse" 10 50 (Some 5)
              (Some (SupplierObj.mk 2 "Another Supplies" (Some "hello@another.com")))] 3 200).
  - reflexivity.
  - vm_compute. reflexivity.
  - right. right. left.
Defined.

(** ** The exceptions the view can raise *)

Lemma float_of_int_shape z :
  match float_of_int z with
  | Raise e => e = OverflowError
  | Return f => finite_number (Float f)
  end.
Proof.
  unfold float_of_int, binary_normalize. destruct z as [|p|p]; [done|..].
  - pose proof (binary_round_bounds false p 0) as H.
    by destruct (binary_round _ _ _ _ _).
  - pose proof (binary_round_bounds true p 0) as H.
    by destruct (binary_round _ _ _ _ _).
Qed.

Lemma SFdiv_finite_shape x sy my ey :
  finite_number (Float x) →
  match SFdiv float_prec float_emax x (S754_finite sy my ey) with
  | S754_nan => False
  | _ => True
  end.
Proof.
  destruct x as [sx|sx| |sx mx ex]; try done. intros _.
  pose proof (SFdiv_finite_bounds sx mx ex sy my ey) as H. cbv zeta in H.
  by destruct (SFdiv _ _ _ _).
Qed.

Lemma int_truediv_shape a b :
  match int_truediv a b with
  | Raise e => (e = ZeroDivisionError ∧ b = 0) ∨ e = OverflowError
  | Return f => finite_number (Float f)
  end.
Proof.
  unfold int_truediv. destruct (decide (b = 0)) as [->|Hb]; [by left|].
  assert (Hx : finite_number (Float (exact_of_int a))) by (by destruct a).
  destruct b as [|pb|pb]; [done|..]; simpl exact_of_int.
  - pose proof (SFdiv_finite_shape _ false pb 0 Hx) as H.
    destruct (SFdiv _ _ _ _); try done. by right.
  - pose proof (SFdiv_finite_shape _ true pb 0 Hx) as H.
    destruct (SFdiv _ _ _ _); try done. by right.
Qed.

Lemma avg_daily_sales_shape product_sales now window_days :
  match avg_daily_sales product_sales now window_days with
  | Raise e => e = OverflowError
  | Return rate => finite_number rate
  end.
Proof.
  unfold avg_daily_sales. destruct (decide (0 < window_days)) as [Hw|Hw]; [|done].
  pose proof (int_truediv_shape
    (total_sold_in_window
       (filter (λ s, now - timedelta window_days ≤ Sale.created_at s) product_sales))
    window_days) as H.
  destruct (int_truediv _ window_days) as [f|e]; simpl; [done|].
  destruct H as [[_ ?]|?]; [lia|done].
Qed.

Lemma floor_raises f e :
  f ≠ S754_nan → floor (Float f) = Raise e → e = OverflowError.
Proof. destruct f; try done. by intros _ [= <-]. Qed.

Lemma days_until_stockout_raises current_stock rate e :
  finite_number rate →
  days_until_stockout current_stock rate = Raise e → e = OverflowError.
Proof.
  unfold days_until_stockout. intros Hrate.
  destruct (number_gt0 rate) eqn:Hgt; [|done].
  assert (Hq : match truediv current_stock rate with
               | Raise e' => e' = OverflowError
               | Return (Float S754_nan) => False
               | Return _ => True
               end).
  { destruct rate as [z|f]; simpl in Hgt; unfold truediv.
    - apply bool_decide_eq_true in Hgt.
      pose proof (int_truediv_shape current_stock z) as H.
      destruct (int_truediv current_stock z) as [q|e']; cbn [fmap py_fmap].
      + by destruct q.
      + destruct H as [[_ ?]|?]; [lia|done].
    - destruct f as [s|s| |s m ex]; try done.
      pose proof (float_of_int_shape current_stock) as Hx.
      destruct (float_of_int current_stock) as [x|e']; cbn [mbind py_bind]; [|done].
      pose proof (SFdiv_finite_shape x s m ex Hx) as Hdiv.
      unfold float_truediv. cbn [fmap py_fmap]. by destruct (SFdiv _ _ _ _). }
  destruct (truediv current_stock rate) as [q|e']; cbn [mbind py_bind].
  - destruct (floor q) as [d|e'] eqn:Hfloor; cbn [mbind py_bind]; [done|].
    intros [= <-]. destruct q as [z|f]; [done|]. apply (floor_raises f); [|done].
    by intros ->.
  - by intros [= <-].
Qed.

Lemma inventory_alert_raises db product threshold avg inv e :
  finite_number avg →
  inventory_alert db product threshold avg inv = Raise e →
  e = OverflowError ∨ (e = AttributeError ∧ Inventory_warehouse db inv = None).
Proof.
  intros Havg. unfold inventory_alert.
  destruct (decide (Inventory.quantity inv < threshold)); [|done].
  destruct (days_until_stockout _ avg) as [days|e'] eqn:Hdays; simpl.
  - destruct (Inventory_warehouse db inv); [done|]. intros [= <-]. by right.
  - intros [= <-]. left. by eapply days_until_stockout_raises.
Qed.

Lemma inventory_loop_raises db product threshold avg inv_list e : ∀ alerts,
  finite_number avg →
  inventory_loop db product threshold avg inv_list alerts = Raise e →
  e = OverflowError ∨
  (e = AttributeError ∧ ∃ inv, inv ∈ inv_list ∧ Inventory_warehouse db inv = None).
Proof.
  induction inv_list as [|inv rest IH]; intros alerts Havg; simpl; [done|].
  destruct (inventory_alert db product threshold avg inv) as [o|e'] eqn:Hinv; simpl.
  - intros [?|(-> & inv' & Hin & Hw)]%IH; [by left| |done].
    right. split; [done|]. exists inv'. split; [by right|done].
  - intros [= <-].
    destruct (inventory_alert_raises _ _ _ _ _ _ Havg Hinv) as [?|[-> Hw]]; [by left|].
    right. split; [done|]. exists inv. split; [left|done].
Qed.

Lemma product_loop_raises db now items e : ∀ alerts,
  product_loop db now items alerts = Raise e →
  e = OverflowError ∨
  (e = AttributeError ∧
   ∃ k l, (k, l) ∈ items ∧
          (query_get Product.id (products db) k = None ∨
           ∃ inv, inv ∈ l ∧ Inventory_warehouse db inv = None)).
Proof.
  induction items as [|[pid inv_list] rest IH]; intros alerts; simpl; [done|].
  assert (Hrest : product_loop db now rest alerts = Raise e ∨
                  (∃ alerts', product_loop db now rest alerts' = Raise e) →
                  e = OverflowError ∨
                  (e = AttributeError ∧
                   ∃ k l, (k, l) ∈ (pid, inv_list) :: rest ∧
                          (query_get Product.id (products db) k = None ∨
                           ∃ inv, inv ∈ l ∧ Inventory_warehouse db inv = None))).
  { intros [H|[alerts' H]]; apply IH in H as [?|(-> & k & l & Hin & Hbad)]; auto;
      right; (split; [done|]); exists k, l; (split; [by right|done]). }
  destruct (query_get Product.id (products db) pid) as [product|] eqn:Hget.
  - destruct (get_recent_sales db product _) as [|s0 recent]; [auto|].
    pose proof (avg_daily_sales_shape (Product_sales db product) now SALES_AVG_DAYS) as Havg.
    destruct (avg_daily_sales _ now SALES_AVG_DAYS) as [avg|e']; simpl;
      [|intros [= <-]; by left].
    destruct (inventory_loop db product _ avg inv_list alerts) as [alerts'|e'] eqn:Hloop;
      simpl; [eauto|].
    intros [= <-].
    destruct (inventory_loop_raises _ _ _ _ _ _ _ Havg Hloop) as [?|(-> & inv & Hin & Hw)];
      [by left|].
    right. split; [done|]. exists pid, inv_list. split; [left|]. right. by exists inv.
  - intros [= <-]. right. split; [done|]. exists pid, inv_list. split; [left|by left].
Qed.

(** X7: whatever the database holds, the view raises neither
    [ZeroDivisionError] nor [ValueError]: the rate is tested before it
    divides, and the quotient whose floor is taken is never a NaN. *)
Theorem low_stock_alerts_never_divides_by_zero db now company_id :
  low_stock_alerts db now company_id ≠ Raise ZeroDivisionError ∧
  low_stock_alerts db now company_id ≠ Raise ValueError.
Proof.
  assert (H : ∀ e, low_stock_alerts db now company_id = Raise e →
                   e = OverflowError ∨ e = AttributeError).
  { intros e. unfold low_stock_alerts, Company_query_get.
    destruct (query_get Company.id (companies db) company_id) as [company|];
      [|destruct (decide (- 2 ^ 63 ≤ company_id < 2 ^ 63)); [done|intros [= <-]; by left]].
    cbn [mbind py_bind].
    destruct (product_loop db now _ []) as [out|e'] eqn:Hloop; simpl; [done|].
    intros [= <-]. apply product_loop_raises in Hloop as [?|[? _]]; auto. }
  split; intros [?|?]%H; done.
Qed.

(** X8: a row of the company that references a product that does not exist
    makes the view raise instead of answering; and the view raises
    [AttributeError] only when there is such a row. *)
Theorem missing_product_raises db now company_id company :
  query_get Company.id (companies db) company_id = Some company →
  ((∃ inv, inv ∈ company_inventories db company ∧
           query_get Product.id (products db) (Inventory.product_id inv) = None) →
   ∃ e, low_stock_alerts db now company_id = Raise e ∧
        (e = AttributeError ∨ e = OverflowError)) ∧
  (low_stock_alerts db now company_id = Raise AttributeError →
   ∃ inv, inv ∈ company_inventories db company ∧
          query_get Product.id (products db) (Inventory.product_id inv) = None).
Proof.
  intros Hcompany. rewrite (low_stock_alerts_found db now company_id company Hcompany).
  destruct (product_loop db now _ []) as [out|e] eqn:Hloop; simpl.
  - split; [|done]. intros (inv & Hin & Hnone). exfalso.
    apply product_loop_spec in Hloop as [Hruns _].
    assert (Hfiled : filed (group_inventories (company_inventories db company) [])
                       (Inventory.product_id inv) inv)
      by (by apply filed_group_inventories_nil).
    destruct Hfiled as (l & Hitem & _).
    eapply Forall_forall in Hruns; [|done].
    destruct Hruns as (product & Hget & _). simpl in Hget. congruence.
  - apply product_loop_raises in Hloop as Hcases. split.
    + intros _. exists e. split; [done|]. destruct Hcases as [?|[? _]]; auto.
    + intros [= ->]. destruct Hcases as [?|(_ & k & l & Hitem & Hbad)]; [done|].
      pose proof (group_inventories_nonempty (company_inventories db company) []
                    ltac:(constructor)) as Hne.
      eapply Forall_forall in Hne; [|done]. simpl in Hne.
      destruct Hbad as [Hnone|(inv & Hin & Hw)].
      * destruct l as [|inv0 l0]; [done|]. exists inv0.
        assert (Hin0 : inv0 ∈ company_inventories db company ∧ Inventory.product_id inv0 = k).
        { apply filed_group_inventories_nil. exists (inv0 :: l0). split; [done|left]. }
        destruct Hin0 as [? ->]. done.
      * assert (Hrow : inv ∈ company_inventories db company).
        { apply (filed_group_inventories_nil _ k). by exists l. }
        destruct (company_inventories_warehouse db company inv Hrow) as (w & Hw' & _).
        congruence.
Qed.

Lemma missing_product_raises_witness :
  ((∃ inv, inv ∈ company_inventories dangling_product_data (Company.mk 1 "Acme Corp") ∧
           query_get Product.id (products dangling_product_data) (Inventory.product_id inv)
             = None) →
   ∃ e, low_stock_alerts dangling_product_data sample_now 1 = Raise e ∧
        (e = AttributeError ∨ e = OverflowError)) ∧
  (low_stock_alerts dangling_product_data sample_now 1 = Raise AttributeError →
   ∃ inv, inv ∈ company_inventories dangling_product_data (Company.mk 1 "Acme Corp") ∧
          query_get Product.id (products dangling_product_data) (Inventory.product_id inv)
            = None).
Proof.
  apply (missing_product_raises dangling_product_data sample_now 1 (Company.mk 1 "Acme Corp")).
  reflexivity.
Defined.

Example dangling_product_raises :
  low_stock_alerts dangling_product_data sample_now 1 = Raise AttributeError.
Proof. reflexivity. Qed.

(** ** The estimate of an alert *)

Lemma int_truediv_gt0 a b f :
  0 < b < 2 ^ 63 →
  int_truediv a b = Return f →
  SFltb (S754_zero false) f = true ↔ 0 < a.
Proof.
  intros [Hb Hb63]. unfold int_truediv. destruct (decide (b = 0)); [lia|].
  assert (Hdb : Zdigits2 b ≤ 63) by (apply Zdigits2_lt_pow2; lia).
  destruct b as [|pb|pb]; try lia. simpl Zdigits2 in Hdb.
  destruct a as [|pa|pa]; simpl exact_of_int.
  - simpl. intros [= <-]. done.
  - pose proof (SFdiv_finite_bounds false pa 0 false pb 0) as H. cbv zeta in H.
    destruct (SFdiv _ _ _ _) as [s|s| |s m e]; [|done|done|].
    + destruct H as [_ H]. lia.
    + destruct H as [-> _]. by intros [= <-].
  - pose proof (SFdiv_finite_bounds true pa 0 false pb 0) as H. cbv zeta in H.
    destruct (SFdiv _ _ _ _) as [s|s| |s m e]; [|done|done|].
    + by intros [= <-].
    + destruct H as [-> _]. by intros [= <-].
Qed.

Lemma days_until_stockout_None current_stock rate days :
  days_until_stockout current_stock rate = Return days →
  days = None ↔ number_gt0 rate = false.
Proof.
  unfold days_until_stockout. destruct (number_gt0 rate).
  - destruct (truediv current_stock rate) as [q|]; cbn [mbind py_bind]; [|done].
    destruct (floor q); cbn [mbind py_bind]; [|done]. by intros [= <-].
  - by intros [= <-].
Qed.

(** X9: the estimate of an alert is [None] exactly when the quantities sold
    of its product in the averaging window sum to zero or less. *)
Theorem estimate_iff_positive_sales db now company_id company alerts total status :
  query_get Company.id (companies db) company_id = Some company →
  low_stock_alerts db now company_id = Return (AlertsBody alerts total, status) →
  ∀ a, a ∈ alerts →
    ∃ product,
      query_get Product.id (products db) (Alert.product_id a) = Some product ∧
      (Alert.days_until_stockout a = None ↔
       total_sold_in_window
         (filter (λ s, now - timedelta SALES_AVG_DAYS ≤ Sale.created_at s)
            (Product_sales db product)) ≤ 0).
Proof.
  intros Hcompany Hview a Ha.
  destruct (low_stock_alerts_built _ _ _ _ _ _ _ _ Hcompany Hview Ha)
    as (inv & product & avg & days & w & _ & Hget & _ & Havg & _ & Hdays & _ & ->).
  apply query_get_Some in Hget as Hpk. destruct Hpk as [_ Hpk].
  exists product. simpl. rewrite Hpk. split; [done|].
  rewrite (days_until_stockout_None _ _ _ Hdays).
  unfold avg_daily_sales in Havg. rewrite decide_True in Havg by done.
  destruct (int_truediv _ SALES_AVG_DAYS) as [f|] eqn:Hdiv; [|done].
  injection Havg as <-. simpl.
  assert (Hw : 0 < SALES_AVG_DAYS < 2 ^ 63) by (unfold SALES_AVG_DAYS; lia).
  pose proof (int_truediv_gt0 _ _ _ Hw Hdiv) as Hgt.
  destruct (SFltb (S754_zero false) f).
  - split; [done|]. intros Hle. apply proj1 in Hgt. specialize (Hgt eq_refl). lia.
  - split; [|done]. intros _.
    destruct (decide (0 < total_sold_in_window
      (filter (λ s, now - timedelta SALES_AVG_DAYS ≤ Sale.created_at s)
         (Product_sales db product)))) as [Hpos|?]; [|lia].
    by apply Hgt in Hpos.
Qed.

Lemma estimate_iff_positive_sales_witness :
  let db := one_product_data sample_now (Some "slow-moving") 3 10 60 in
  let a := Alert.mk 1 "Widget A" "WID-001" 1 "W1" 3 5 None None in
  ∃ product,
    query_get Product.id (products db) (Alert.product_id a) = Some product ∧
    (Alert.days_until_stockout a = None ↔
     total_sold_in_window
       (filter (λ s, sample_now - timedelta SALES_AVG_DAYS ≤ Sale.created_at s)
          (Product_sales db product)) ≤ 0).
Proof.
  apply (estimate_iff_positive_sales
           (one_product_data sample_now (Some "slow-moving") 3 10 60) sample_now 1
           (Company.mk 1 "Acme Corp")
           [Alert.mk 1 "Widget A" "WID-001" 1 "W1" 3 5 None None] 1 200).
  - reflexivity.
  - vm_compute. reflexivity.
  - left.
Defined.

Lemma days_until_stockout_zero_stock rate :
  number_gt0 rate = true → days_until_stockout 0 rate = Return (Some 0).
Proof.
  unfold days_until_stockout. intros Hgt. rewrite Hgt. destruct rate as [z|f]; simpl in Hgt.
  - apply bool_decide_eq_true in Hgt. unfold truediv. by rewrite int_truediv_zero.
  - destruct f as [s|s| |s m e]; try done; by destruct s.
Qed.

Lemma avg_daily_sales_gt0 product_sales now avg :
  avg_daily_sales product_sales now SALES_AVG_DAYS = Return avg →
  number_gt0 avg = true ↔
  0 < total_sold_in_window
        (filter (λ s, now - timedelta SALES_AVG_DAYS ≤ Sale.created_at s) product_sales).
Proof.
  unfold avg_daily_sales. rewrite decide_True by done.
  destruct (int_truediv _ SALES_AVG_DAYS) as [f|] eqn:Hdiv; [|done].
  intros [= <-]. simpl.
  assert (Hw : 0 < SALES_AVG_DAYS < 2 ^ 63) by (unfold SALES_AVG_DAYS; lia).
  exact (int_truediv_gt0 _ _ _ Hw Hdiv).
Qed.

(** X10: an alert for a row whose quantity is 0 has an estimate of 0 days
    when the quantities sold of its product in the averaging window sum to
    more than zero, and none when they sum to zero or less. *)
Theorem empty_row_estimates_zero_days db now company_id company alerts total status :
  query_get Company.id (companies db) company_id = Some company →
  low_stock_alerts db now company_id = Return (AlertsBody alerts total, status) →
  ∀ a, a ∈ alerts → Alert.current_stock a = 0 →
    ∃ product,
      query_get Product.id (products db) (Alert.product_id a) = Some product ∧
      let sold :=
        total_sold_in_window
          (filter (λ s, now - timedelta SALES_AVG_DAYS ≤ Sale.created_at s)
             (Product_sales db product)) in
      (0 < sold → Alert.days_until_stockout a = Some 0) ∧
      (sold ≤ 0 → Alert.days_until_stockout a = None).
Proof.
  intros Hcompany Hview a Ha.
  destruct (low_stock_alerts_built _ _ _ _ _ _ _ _ Hcompany Hview Ha)
    as (inv & product & avg & days & w & _ & Hget & _ & Havg & _ & Hdays & _ & ->).
  apply query_get_Some in Hget as Hpk. destruct Hpk as [_ Hpk].
  simpl. intros Hzero. rewrite Hzero in Hdays.
  exists product. rewrite Hpk. split; [done|].
  pose proof (avg_daily_sales_gt0 _ _ _ Havg) as Hgt. split.
  - intros Hsold. apply Hgt in Hsold.
    rewrite days_until_stockout_zero_stock in Hdays by done. by injection Hdays as <-.
  - intros Hsold. apply (days_until_stockout_None 0 avg); [done|].
    destruct (number_gt0 avg); [|done]. apply proj1 in Hgt. specialize (Hgt eq_refl). lia.
Qed.

Lemma empty_row_estimates_zero_days_witness :
  let db := one_product_data sample_now (Some "normal") 0 10 5 in
  let a := Alert.mk 1 "Widget A" "WID-001" 1 "W1" 0 20 (Some 0) None in
  ∃ product,
    query_get Product.id (products db) (Alert.product_id a) = Some product ∧
    let sold :=
      total_sold_in_window
        (filter (λ s, sample_now - timedelta SALES_AVG_DAYS ≤ Sale.created_at s)
           (Product_sales db product)) in
    (0 < sold → Alert.days_until_stockout a = Some 0) ∧
    (sold ≤ 0 → Alert.days_until_stockout a = None).
Proof.
  apply (empty_row_estimates_zero_days
           (one_product_data sample_now (Some "normal") 0 10 5) sample_now 1
           (Company.mk 1 "Acme Corp")
           [Alert.mk 1 "Widget A" "WID-001" 1 "W1" 0 20 (Some 0) None] 1 200).
  - reflexivity.
  - vm_compute. reflexivity.
  - left.
  - reflexivity.
Defined.

(** Both cases at stock 0: a sale in the averaging window, and only a sale
    older than it. *)
Example empty_row_estimates :
  low_stock_alerts (one_product_data sample_now (Some "normal") 0 10 5) sample_now 1
    = Return (AlertsBody [Alert.mk 1 "Widget A" "WID-001" 1 "W1" 0 20 (Some 0) None] 1, 200) ∧
  low_stock_alerts (one_product_data sample_now (Some "normal") 0 10 60) sample_now 1
    = Return (AlertsBody [Alert.mk 1 "Widget A" "WID-001" 1 "W1" 0 20 None None] 1, 200).
Proof. split; vm_compute; reflexivity. Qed.

(** ** Rows that are out of stock *)

(** X11: on a well-formed snapshot, a row of the company whose quantity is
    zero or negative is reported whenever its product has a sale in the
    lookback window, whatever the type of the product: every threshold,
    the default included, is positive. *)
Theorem out_of_stock_rows_are_reported db now company_id company inv product :
  query_get Company.id (companies db) company_id = Some company →
  forallb (inventory_ok db now) (company_inventories db company) = true →
  inv ∈ company_inventories db company →
  query_get Product.id (products db) (Inventory.product_id inv) = Some product →
  has_recent_sales db now product →
  Inventory.quantity inv ≤ 0 →
  ∃ alerts a,
    low_stock_alerts db now company_id
      = Return (AlertsBody alerts (Z.of_nat (length alerts)), 200) ∧
    a ∈ alerts ∧ alert_of a inv.
Proof.
  intros Hcompany Hok Hin Hget Hrecent Hq.
  destruct (low_stock_alerts_justified db now company_id company Hcompany Hok)
    as (alerts & Hview & _ & Hcomplete).
  pose proof (get_threshold_for_product_bounds product) as Hthr.
  destruct (Hcomplete inv product Hin Hget Hrecent ltac:(lia)) as (a & Ha & Hof).
  by exists alerts, a.
Qed.

Lemma out_of_stock_rows_are_reported_witness :
  let db := one_product_data sample_now None 0 10 5 in
  ∃ alerts a,
    low_stock_alerts db sample_now 1
      = Return (AlertsBody alerts (Z.of_nat (length alerts)), 200) ∧
    a ∈ alerts ∧ alert_of a (Inventory.mk 1 1 1 0).
Proof.
  apply (out_of_stock_rows_are_reported (one_product_data sample_now None 0 10 5)
           sample_now 1 (Company.mk 1 "Acme Corp") (Inventory.mk 1 1 1 0)
           (Product.mk 1 "Widget A" "WID-001" None None)).
  - reflexivity.
  - vm_compute. reflexivity.
  - left.
  - reflexivity.
  - exists (Sale.mk 1 1 10 (sample_now - timedelta 5)). split; [left|]. by vm_compute.
  - by vm_compute.
Defined.

(** ** Recent sales *)

(** X12: moving the cutoff of [get_recent_sales] to a later date keeps the
    sales dated at or after it, in the same order; so the sales the view
    averages over the last [SALES_AVG_DAYS] days are among the recent sales
    it requires, and a product that fails the recent-sales test has no sale
    in the averaging window. *)
Theorem get_recent_sales_nested db product :
  (∀ since1 since2, since1 ≤ since2 →
     get_recent_sales db product since2
       = filter (λ s, since2 ≤ Sale.created_at s) (get_recent_sales db product since1) ∧
     get_recent_sales db product since2 `sublist_of` get_recent_sales db product since1) ∧
  (∀ now,
     filter (λ s, now - timedelta SALES_AVG_DAYS ≤ Sale.created_at s) (Product_sales db product)
       `sublist_of` get_recent_sales db product (now - timedelta SALES_LOOKBACK_DAYS)) ∧
  (∀ now,
     get_recent_sales db product (now - timedelta SALES_LOOKBACK_DAYS) = [] →
     filter (λ s, now - timedelta SALES_AVG_DAYS ≤ Sale.created_at s) (Product_sales db product)
       = []).
Proof.
  assert (Hnest : ∀ since1 since2, since1 ≤ since2 →
    get_recent_sales db product since2
      = filter (λ s, since2 ≤ Sale.created_at s) (get_recent_sales db product since1)).
  { intros since1 since2 Hle. unfold get_recent_sales.
    rewrite list_filter_filter_l; [done|]. intros s. lia. }
  assert (Hwin : ∀ now, now - timedelta SALES_LOOKBACK_DAYS ≤ now - timedelta SALES_AVG_DAYS)
    by (intros now; unfold timedelta, SALES_LOOKBACK_DAYS, SALES_AVG_DAYS; lia).
  split; [|split].
  - intros since1 since2 Hle. split; [by apply Hnest|].
    rewrite (Hnest since1 since2 Hle). apply sublist_filter.
  - intros now.
    change (filter (λ s, now - timedelta SALES_AVG_DAYS ≤ Sale.created_at s)
              (Product_sales db product))
      with (get_recent_sales db product (now - timedelta SALES_AVG_DAYS)).
    rewrite (Hnest _ _ (Hwin now)). apply sublist_filter.
  - intros now Hnil.
    change (filter (λ s, now - timedelta SALES_AVG_DAYS ≤ Sale.created_at s)
              (Product_sales db product))
      with (get_recent_sales db product (now - timedelta SALES_AVG_DAYS)).
    by rewrite (Hnest _ _ (Hwin now)), Hnil.
Qed.

(** ** Rows of other companies *)

Lemma inventory_loop_ext db db' product threshold avg inv_list :
  warehouses db = warehouses db' → suppliers db = suppliers db' →
  ∀ alerts,
    inventory_loop db product threshold avg inv_list alerts
      = inventory_loop db' product threshold avg inv_list alerts.
Proof.
  intros Hw Hs. induction inv_list as [|inv rest IH]; intros alerts; simpl; [done|].
  assert (inventory_alert db product threshold avg inv
          = inventory_alert db' product threshold avg inv) as ->.
  { unfold inventory_alert, Inventory_warehouse, Product_supplier. by rewrite Hw, Hs. }
  destruct (inventory_alert db' product threshold avg inv); simpl; [apply IH|done].
Qed.

Lemma product_loop_ext db db' now items :
  warehouses db = warehouses db' → suppliers db = suppliers db' →
  products db = products db' → sales db = sales db' →
  ∀ alerts, product_loop db now items alerts = product_loop db' now items alerts.
Proof.
  intros Hw Hs Hp Hsales. induction items as [|[pid inv_list] rest IH]; intros alerts; simpl;
    [done|].
  rewrite Hp. destruct (query_get Product.id (products db') pid) as [product|]; [|done].
  unfold get_recent_sales, Product_sales. rewrite Hsales.
  destruct (filter _ (filter _ (sales db'))); [apply IH|].
  destruct (avg_daily_sales _ now SALES_AVG_DAYS) as [avg|]; simpl; [|done].
  rewrite (inventory_loop_ext db db') by done.
  destruct (inventory_loop db' product _ avg inv_list alerts); simpl; [apply IH|done].
Qed.

(** X13: the answer for a company depends on the inventory table only
    through the rows held in the warehouses of that company: two databases
    that differ only in rows held elsewhere get the same answer. *)
Theorem other_rows_do_not_matter db db' now company_id :
  companies db = companies db' →
  warehouses db = warehouses db' →
  suppliers db = suppliers db' →
  products db = products db' →
  sales db = sales db' →
  (∀ company, query_get Company.id (companies db) company_id = Some company →
     company_inventories db company = company_inventories db' company) →
  low_stock_alerts db now company_id = low_stock_alerts db' now company_id.
Proof.
  intros Hc Hw Hs Hp Hsales Hrows. unfold low_stock_alerts, Company_query_get. rewrite <- Hc.
  destruct (query_get Company.id (companies db) company_id) as [company|] eqn:Hcompany;
    [|by destruct (decide (- 2 ^ 63 ≤ company_id < 2 ^ 63))].
  cbn [mbind py_bind]. rewrite <- (Hrows company eq_refl).
  by rewrite (product_loop_ext db db' now _ Hw Hs Hp Hsales).
Qed.

(** The stock that another company holds of product 1 leaves the three
    alerts of the first company as they are. *)
Lemma other_rows_do_not_matter_witness :
  low_stock_alerts
    {| companies := companies (two_company_data sample_now);
       warehouses := warehouses (two_company_data sample_now);
       suppliers := suppliers (two_company_data sample_now);
       products := products (two_company_data sample_now);
       inventories := inventories (seed_sample_data sample_now);
       sales := sales (two_company_data sample_now) |} sample_now 1
  = low_stock_alerts (two_company_data sample_now) sample_now 1.
Proof.
  apply other_rows_do_not_matter; try reflexivity.
  intros company Hcompany. vm_compute in Hcompany. injection Hcompany as <-.
  reflexivity.
Defined.

Example two_company_data_alerts :
  low_stock_alerts (two_company_data sample_now) sample_now 1
    = low_stock_alerts (seed_sample_data sample_now) sample_now 1 ∧
  low_stock_alerts (two_company_data sample_now) sample_now 2
    = Return (AlertsBody
        [Alert.mk 1 "Widget A" "WID-001" 3 "Other Warehouse" 1 20 (Some 3)
           (Some (SupplierObj.mk 1 "Supplier Corp" (Some "orders@supplier.com")))] 1, 200).
Proof. split; vm_compute; reflexivity. Qed.

(** ** Determinism *)

Lemma NoDup_fmap_inj_on {A} (f : A → Z) (l : list A) x y :
  NoDup (f <$> l) → x ∈ l → y ∈ l → f x = f y → x = y.
Proof.
  induction l as [|a l IH]; [by intros _ ?%elem_of_nil|].
  rewrite fmap_cons. intros [Ha Hnd]%NoDup_cons Hx Hy Hxy.
  apply elem_of_cons in Hx as [->|Hx]; apply elem_of_cons in Hy as [->|Hy]; [done|..|by apply IH].
  - exfalso. apply Ha. rewrite Hxy. apply list_elem_of_fmap. by exists y.
  - exfalso. apply Ha. rewrite <- Hxy. apply list_elem_of_fmap. by exists x.
Qed.

Lemma query_get_Permutation {A} (pk : A → Z) (table table' : list A) key :
  NoDup (pk <$> table) → table ≡ₚ table' →
  query_get pk table key = query_get pk table' key.
Proof.
  intros Hnd Hperm.
  destruct (query_get pk table key) as [row|] eqn:Hget.
  - apply query_get_Some in Hget as [Hin Hpk].
    destruct (query_get_is_Some pk table' key row) as [row' Hget']; [by rewrite <- Hperm|done|].
    rewrite Hget'. apply query_get_Some in Hget' as [Hin' Hpk']. f_equal.
    apply (NoDup_fmap_inj_on pk table); [done|done|by rewrite Hperm|congruence].
  - symmetry. apply query_get_None. intros row Hin.
    apply (proj1 (query_get_None pk table key) Hget). by rewrite Hperm.
Qed.

Lemma total_sold_in_window_Permutation l l' :
  l ≡ₚ l' → total_sold_in_window l = total_sold_in_window l'.
Proof.
  unfold total_sold_in_window. induction 1; csimpl in *; lia.
Qed.

Section two_readings.
Variables (db db' : Database) (now : Z).
Hypothesis Hkeys : primary_keys_unique db.
Hypothesis Hsame : same_snapshot db db'.

Lemma Product_sales_Permutation product :
  Product_sales db product ≡ₚ Product_sales db' product.
Proof.
  destruct Hsame as (_ & _ & _ & _ & Hsales & _).
  unfold Product_sales. by rewrite Hsales.
Qed.

Lemma avg_daily_sales_two_readings product :
  avg_daily_sales (Product_sales db product) now SALES_AVG_DAYS
    = avg_daily_sales (Product_sales db' product) now SALES_AVG_DAYS.
Proof.
  unfold avg_daily_sales.
  rewrite (total_sold_in_window_Permutation _
             (filter (λ s, now - timedelta SALES_AVG_DAYS ≤ Sale.created_at s)
                (Product_sales db' product))); [done|].
  by rewrite Product_sales_Permutation.
Qed.

Lemma inventory_alert_two_readings product threshold avg inv :
  inventory_alert db product threshold avg inv = inventory_alert db' product threshold avg inv.
Proof.
  destruct Hkeys as (_ & Hw & Hs & _). destruct Hsame as (_ & Hpw & Hps & _).
  unfold inventory_alert, Inventory_warehouse, Product_supplier.
  rewrite (query_get_Permutation Warehouse.id _ _ _ Hw Hpw).
  destruct (Product.supplier_id product) as [sid|]; simpl; [|done].
  by rewrite (query_get_Permutation Supplier.id _ _ _ Hs Hps).
Qed.

Lemma inventory_loop_two_readings product threshold avg inv_list : ∀ alerts,
  inventory_loop db product threshold avg inv_list alerts
    = inventory_loop db' product threshold avg inv_list alerts.
Proof.
  induction inv_list as [|inv rest IH]; intros alerts; simpl; [done|].
  rewrite inventory_alert_two_readings.
  destruct (inventory_alert db' product threshold avg inv); simpl; [apply IH|done].
Qed.

Lemma product_loop_two_readings items : ∀ alerts,
  product_loop db now items alerts = product_loop db' now items alerts.
Proof.
  induction items as [|[pid inv_list] rest IH]; intros alerts; simpl; [done|].
  assert (Hp : query_get Product.id (products db) pid = query_get Product.id (products db') pid).
  { destruct Hkeys as (_ & _ & _ & Hp). destruct Hsame as (_ & _ & _ & Hpp & _).
    by apply query_get_Permutation. }
  rewrite <- Hp. destruct (query_get Product.id (products db) pid) as [product|]; [|done].
  assert (Hrecent :
    get_recent_sales db product (now - timedelta SALES_LOOKBACK_DAYS)
      ≡ₚ get_recent_sales db' product (now - timedelta SALES_LOOKBACK_DAYS)).
  { unfold get_recent_sales. by rewrite Product_sales_Permutation. }
  rewrite <- avg_daily_sales_two_readings.
  destruct (get_recent_sales db product _) as [|s0 recent],
    (get_recent_sales db' product _) as [|s0' recent'].
  - apply IH.
  - by apply Permutation_nil_cons in Hrecent.
  - symmetry in Hrecent. by apply Permutation_nil_cons in Hrecent.
  - destruct (avg_daily_sales _ now SALES_AVG_DAYS) as [avg|]; simpl; [|done].
    rewrite inventory_loop_two_readings.
    destruct (inventory_loop db' product _ avg inv_list alerts); simpl; [apply IH|done].
Qed.

Lemma company_inventories_two_readings company :
  company_inventories db company = company_inventories db' company.
Proof.
  destruct Hsame as (_ & Hpw & _ & _ & _ & Hinv).
  unfold company_inventories. rewrite <- Hinv.
  apply list_filter_iff. intros inv.
  assert (Company_warehouses db company ≡ₚ Company_warehouses db' company) as Hcw
    by (unfold Company_warehouses; by rewrite Hpw).
  by rewrite Hcw.
Qed.

Lemma low_stock_alerts_two_readings company_id :
  low_stock_alerts db now company_id = low_stock_alerts db' now company_id.
Proof.
  unfold low_stock_alerts, Company_query_get.
  assert (Hc : query_get Company.id (companies db) company_id
               = query_get Company.id (companies db') company_id).
  { destruct Hkeys as (Hc & _). destruct Hsame as (Hpc & _).
    by apply query_get_Permutation. }
  rewrite <- Hc.
  destruct (query_get Company.id (companies db) company_id) as [company|];
    [|by destruct (decide (- 2 ^ 63 ≤ company_id < 2 ^ 63))].
  cbn [mbind py_bind].
  by rewrite <- company_inventories_two_readings, product_loop_two_readings.
Qed.
End two_readings.

Lemma keys_group_inventories rows : ∀ prod_inv_map,
  (group_inventories rows prod_inv_map).*1 =
    foldl (λ seen inv,
             if decide (Inventory.product_id inv ∈ seen) then seen
             else seen ++ [Inventory.product_id inv]) prod_inv_map.*1 rows.
Proof.
  induction rows as [|inv rows IH]; intros m; simpl; [done|].
  by rewrite IH, keys_setdefault_append.
Qed.

Lemma values_group_inventories rows :
  (group_inventories rows []).*2 =
    (λ k, filter (λ inv, Inventory.product_id inv = k) rows) <$> (group_inventories rows []).*1.
Proof.
  assert (Hnd : NoDup (group_inventories rows []).*1)
    by (apply NoDup_keys_group_inventories; constructor).
  assert (Hall : ∀ k l, (k, l) ∈ group_inventories rows [] →
                        l = filter (λ inv, Inventory.product_id inv = k) rows).
  { intros k l Hin. apply elem_of_dict in Hin; [|done].
    rewrite dict_get_group_inventories in Hin. simpl in Hin.
    destruct (filter _ rows); [done|]. by injection Hin as <-. }
  clear Hnd. induction (group_inventories rows []) as [|[k l] items IH]; [done|].
  rewrite !fmap_cons. simpl. f_equal.
  - apply Hall. left.
  - apply IH. intros k' l' Hin. apply Hall. by right.
Qed.

(** The rows in the order in which the view visits them: by product, in
    order of first appearance, and within a product in row order. *)
Lemma visit_order rows :
  concat (group_inventories rows []).*2 =
    concat ((λ k, filter (λ inv, Inventory.product_id inv = k) rows) <$> discovery_order rows).
Proof.
  rewrite values_group_inventories. unfold discovery_order.
  by rewrite (keys_group_inventories rows []).
Qed.

(** C6: two requests for the same company at the same clock reading, on two
    readings of one snapshot, have the same outcome: the same alerts in the
    same order and the same total.  The alerts follow the inventory rows of
    the company, which the two readings deliver in the same order: product
    by product in order of first appearance, and within a product in row
    order, one alert for each reportable row; the order in which the other
    tables are read does not matter. *)
Theorem low_stock_alerts_deterministic db db' now company_id :
  primary_keys_unique db →
  same_snapshot db db' →
  low_stock_alerts db now company_id = low_stock_alerts db' now company_id ∧
  ∀ company alerts total status,
    query_get Company.id (companies db) company_id = Some company →
    low_stock_alerts db now company_id = Return (AlertsBody alerts total, status) →
    let rows := company_inventories db company in
    total = Z.of_nat (length alerts) ∧
    Forall2 alert_of alerts
      (filter (λ inv, reportable db now inv = true)
         (concat ((λ k, filter (λ inv, Inventory.product_id inv = k) rows)
                    <$> discovery_order rows))).
Proof.
  intros Hkeys Hsame. split; [by apply low_stock_alerts_two_readings|].
  intros company alerts total status Hcompany Hview rows. split.
  - by destruct (low_stock_alerts_Return db now company_id company Hcompany _ _ _ Hview).
  - unfold rows. rewrite <- visit_order. by eapply low_stock_alerts_in_order.
Qed.

(** The seeded sample data, and the same with every table but the inventory
    read backwards. *)
Lemma low_stock_alerts_deterministic_witness :
  let db := seed_sample_data sample_now in
  low_stock_alerts db sample_now 1 = low_stock_alerts (read_in_reverse db) sample_now 1 ∧
  ∀ company alerts total status,
    query_get Company.id (companies db) 1 = Some company →
    low_stock_alerts db sample_now 1 = Return (AlertsBody alerts total, status) →
    let rows := company_inventories db company in
    total = Z.of_nat (length alerts) ∧
    Forall2 alert_of alerts
      (filter (λ inv, reportable db sample_now inv = true)
         (concat ((λ k, filter (λ inv, Inventory.product_id inv = k) rows)
                    <$> discovery_order rows))).
Proof.
  apply (low_stock_alerts_deterministic (seed_sample_data sample_now)
           (read_in_reverse (seed_sample_data sample_now)) sample_now 1).
  - repeat split; apply (bool_decide_eq_true_1 _); vm_compute; reflexivity.
  - repeat split; simpl; try (symmetry; apply reverse_Permutation); reflexivity.
Defined.

(** Interleaved rows of two products are reported product by product. *)
Example alerts_follow_discovery_order :
  let db := {|
    companies := [Company.mk 1 "Acme Corp"];
    warehouses := [Warehouse.mk 1 "W1" 1; Warehouse.mk 2 "W2" 1];
    suppliers := [];
    products := [Product.mk 7 "B" "B-1" (Some "normal") None;
                 Product.mk 3 "A" "A-1" (Some "normal") None];
    inventories := [Inventory.mk 1 7 1 1; Inventory.mk 2 3 1 2; Inventory.mk 3 7 2 3];
    sales := [Sale.mk 1 3 1 sample_now; Sale.mk 2 7 1 sample_now]
  |} in
  discovery_order (inventories db) = [7; 3] ∧
  ∃ alerts, low_stock_alerts db sample_now 1 = Return (AlertsBody alerts 3, 200) ∧
            (λ a, (Alert.product_id a, Alert.warehouse_id a)) <$> alerts
              = [(7, 1); (7, 2); (3, 1)].
Proof. split; [reflexivity|]. eexists. split; vm_compute; reflexivity. Qed.
